(** * A multi-agent coordination demo: models, context store, delegation tools
      and the request orchestrator.

    The development follows the Python sources:
    - [models.py]       result schemas, [TaskSummary], [MultiAgentContext],
                        the formatting functions;
    - [agents.py]       [get_gemini_model], the four agents and the five
                        coordinator tools;
    - [multi_agent.py]  [MultiAgentSystem.process_request], the interactive
                        session and [main];
    - [main.py]         the stand-alone research agent.

    Python strings are modelled as byte strings (UTF-8), integers as [Z],
    lists as [list], the [agent_results] dictionary as a [gmap].  Code that
    mutates the context or performs I/O is written in a state-and-exception
    monad over a [World]; a raised exception keeps every write made before
    it, as in Python. *)

From Stdlib Require Import ZArith String List Ascii Lia DecimalString.
From stdpp Require Import base option list strings gmap.

Local Open Scope string_scope.
Local Open Scope Z_scope.

(** ** Python built-ins used by the sources *)

Module Py.

(** [str(n)] for an [int]. *)
Definition str_int (z : Z) : string := NilZero.string_of_int (Z.to_int z).

(** [str(len(l))]. *)
Definition str_len {A} (l : list A) : string := str_int (Z.of_nat (length l)).

(** [sep.join(l)]. *)
Definition join (sep : string) (l : list string) : string := String.concat sep l.

(** [l[start:]] for an arbitrary integer [start]: a negative index counts
    from the end and is clamped at the beginning of the list. *)
Definition slice_from {A} (start : Z) (l : list A) : list A :=
  let n := Z.of_nat (length l) in
  let i := if start <? 0 then Z.max 0 (n + start) else Z.min start n in
  drop (Z.to_nat i) l.

(** [l[-k:]], as written in the sources: the index is the negation of [k],
    so [k = 0] gives [l[0:]]. *)
Definition last_slice {A} (k : Z) (l : list A) : list A := slice_from (- k) l.

Definition upper_ascii (c : ascii) : ascii :=
  let n := nat_of_ascii c in
  if (Nat.leb 97 n && Nat.leb n 122)%bool then ascii_of_nat (n - 32) else c.

(** [s.upper()] on ASCII text: the letters [a-z] are mapped, every other
    byte is left as it is, where Python also maps the letters of other
    alphabets.  Where the result is stated, the text is taken to be ASCII. *)
Fixpoint upper (s : string) : string :=
  match s with
  | EmptyString => EmptyString
  | String c r => String (upper_ascii c) (upper r)
  end.

(** [s.startswith(p)]. *)
Definition startswith (p s : string) : bool := String.prefix p s.

(** Truth value of a string: [not s] holds for the empty string. *)
Definition truthy (s : string) : bool :=
  match s with EmptyString => false | _ => true end.

(** [enumerate(l, i)]. *)
Fixpoint enumerate {A} (i : Z) (l : list A) : list (Z * A) :=
  match l with
  | [] => []
  | x :: r => (i, x) :: enumerate (i + 1) r
  end.

Definition nl : string := String (ascii_of_nat 10) EmptyString.

Definition lower_ascii (c : ascii) : ascii :=
  let n := nat_of_ascii c in
  if (Nat.leb 65 n && Nat.leb n 90)%bool then ascii_of_nat (n + 32) else c.

(** [s.lower()] on ASCII text: the letters [A-Z] are mapped, every other
    byte is left as it is, where Python also maps the letters of other
    alphabets.  Where the result is stated, the text is taken to be ASCII. *)
Fixpoint lower (s : string) : string :=
  match s with
  | EmptyString => EmptyString
  | String c r => String (lower_ascii c) (lower r)
  end.

(** The one-byte characters Python counts as whitespace: tab to carriage
    return, the four separators FS, GS, RS, US, and the space. *)
Definition is_space (c : ascii) : bool :=
  let n := nat_of_ascii c in
  ((Nat.leb 9 n && Nat.leb n 13) || (Nat.leb 28 n && Nat.leb n 32))%bool.

(** The two-byte ones, in UTF-8: U+0085 and U+00A0. *)
Definition is_space2 (c d : ascii) : bool :=
  let m := nat_of_ascii d in
  (Nat.eqb (nat_of_ascii c) 194 && (Nat.eqb m 133 || Nat.eqb m 160))%bool.

(** The three-byte ones: U+1680, U+2000 to U+200A, U+2028, U+2029, U+202F,
    U+205F and U+3000. *)
Definition is_space3 (c d e : ascii) : bool :=
  let n := nat_of_ascii c in
  let m := nat_of_ascii d in
  let k := nat_of_ascii e in
  ((Nat.eqb n 225 && Nat.eqb m 154 && Nat.eqb k 128)
   || (Nat.eqb n 226 && Nat.eqb m 128
       && ((Nat.leb 128 k && Nat.leb k 138)
           || Nat.eqb k 168 || Nat.eqb k 169 || Nat.eqb k 175))
   || (Nat.eqb n 226 && Nat.eqb m 129 && Nat.eqb k 159)
   || (Nat.eqb n 227 && Nat.eqb m 128 && Nat.eqb k 128))%bool.

(** Whitespace characters removed from the front of a UTF-8 text. *)
Fixpoint lstrip_list (l : list ascii) : list ascii :=
  match l with
  | [] => []
  | c :: r =>
      if is_space c then lstrip_list r
      else match r with
           | [] => l
           | d :: r' =>
               if is_space2 c d then lstrip_list r'
               else match r' with
                    | [] => l
                    | e :: r'' => if is_space3 c d e then lstrip_list r'' else l
                    end
           end
  end.

(** The same on the reversed text, where the bytes of a character come
    last byte first. *)
Fixpoint lstrip_reversed (l : list ascii) : list ascii :=
  match l with
  | [] => []
  | e :: r =>
      if is_space e then lstrip_reversed r
      else match r with
           | [] => l
           | d :: r' =>
               if is_space2 d e then lstrip_reversed r'
               else match r' with
                    | [] => l
                    | c :: r'' => if is_space3 c d e then lstrip_reversed r'' else l
                    end
           end
  end.

(** [s.strip()]. *)
Definition strip (s : string) : string :=
  string_of_list_ascii
    (rev (lstrip_reversed (rev (lstrip_list (list_ascii_of_string s))))).

(** A byte [10xxxxxx] continues the character begun before it. *)
Definition is_continuation (c : ascii) : bool :=
  let n := nat_of_ascii c in (Nat.leb 128 n && Nat.ltb n 192)%bool.

(** [s[:n]]: the first [n] characters of a UTF-8 text. *)
Fixpoint take_chars (n : nat) (s : string) : string :=
  match s with
  | EmptyString => EmptyString
  | String c r =>
      if is_continuation c then String c (take_chars n r)
      else match n with
           | O => EmptyString
           | S n' => String c (take_chars n' r)
           end
  end.

(** [s * n]. *)
Fixpoint repeat_str (s : string) (n : nat) : string :=
  match n with
  | O => EmptyString
  | S n' => s +:+ repeat_str s n'
  end.

End Py.

(** ** models.py: result schemas *)

Record ResearchResult := {
  topic : string;
  summary : string;
  key_points : list string;
  confidence_level : string;
  sources_needed : list string
}.

Record CodeAnalysis := {
  language : string;
  complexity_score : Z;
  issues_found : list string;
  suggestions : list string;
  security_concerns : list string
}.

Record CreativeContent := {
  content_type : string;
  title : string;
  content : string;
  target_audience : string;
  tone : string;
  word_count : Z
}.

Record TaskSummary := {
  task_type : string;
  agents_used : list string;
  status : string;
  result_summary : string;
  timestamp : string
}.

(** Exceptions that cross function boundaries in the sources.  All of them
    derive from [Exception], which is what the [except] clauses of the
    sources catch; interrupts from outside the program are not modelled. *)
Inductive Exn :=
| ValueError (msg : string)          (* raised by [get_gemini_model] *)
| SchemaViolation (msg : string)     (* output rejected by the declared schema *)
| BackendUnavailable (msg : string)  (* the model backend could not answer *)
| TypeError (msg : string)           (* a constructor called without its arguments *)
| EOFError.                          (* [input()] on an exhausted stdin *)

(** [str(e)]. *)
Definition exn_str (e : Exn) : string :=
  match e with
  | ValueError m | SchemaViolation m | BackendUnavailable m | TypeError m => m
  | EOFError => "EOF when reading a line"
  end.

Inductive Result (A : Type) :=
| Ok (a : A)
| Raise (e : Exn).
Arguments Ok {A} a.
Arguments Raise {A} e.

(** *** Candidate values and their validation

    What the language model sends back is a candidate: the fields of the
    target schema before any check.  A field declared with
    [default_factory=list] may be missing from it. *)

Record ResearchCandidate := {
  rc_topic : string;
  rc_summary : string;
  rc_key_points : list string;
  rc_confidence_level : string;
  rc_sources_needed : option (list string)
}.

Record CodeCandidate := {
  cc_language : string;
  cc_complexity_score : Z;
  cc_issues_found : option (list string);
  cc_suggestions : option (list string);
  cc_security_concerns : option (list string)
}.

Record CreativeCandidate := {
  cr_content_type : string;
  cr_title : string;
  cr_content : string;
  cr_target_audience : string;
  cr_tone : string;
  cr_word_count : Z
}.

(** [Field(..., min_items=lo, max_items=hi)] on a list. *)
Definition check_items {A} (field : string) (lo hi : nat) (l : list A) : Result (list A) :=
  if Nat.ltb (length l) lo then
    Raise (SchemaViolation (field +:+ ": list should have at least " +:+ Py.str_int (Z.of_nat lo) +:+ " items"))
  else if Nat.ltb hi (length l) then
    Raise (SchemaViolation (field +:+ ": list should have at most " +:+ Py.str_int (Z.of_nat hi) +:+ " items"))
  else Ok l.

(** [Field(..., ge=lo, le=hi)] on an integer. *)
Definition check_range (field : string) (lo hi : Z) (z : Z) : Result Z :=
  if z <? lo then
    Raise (SchemaViolation (field +:+ ": input should be greater than or equal to " +:+ Py.str_int lo))
  else if hi <? z then
    Raise (SchemaViolation (field +:+ ": input should be less than or equal to " +:+ Py.str_int hi))
  else Ok z.

(** [Field(default_factory=list)]. *)
Definition default_list {A} (o : option (list A)) : list A :=
  match o with Some l => l | None => [] end.

(** [ResearchResult]: [key_points] carries [min_items=3, max_items=5]. *)
Definition validate_research (c : ResearchCandidate) : Result ResearchResult :=
  match check_items "key_points" 3 5 (rc_key_points c) with
  | Raise e => Raise e
  | Ok kp =>
      Ok {| topic := rc_topic c;
            summary := rc_summary c;
            key_points := kp;
            confidence_level := rc_confidence_level c;
            sources_needed := default_list (rc_sources_needed c) |}
  end.

(** [CodeAnalysis]: [complexity_score] carries [ge=1, le=10]. *)
Definition validate_code (c : CodeCandidate) : Result CodeAnalysis :=
  match check_range "complexity_score" 1 10 (cc_complexity_score c) with
  | Raise e => Raise e
  | Ok score =>
      Ok {| language := cc_language c;
            complexity_score := score;
            issues_found := default_list (cc_issues_found c);
            suggestions := default_list (cc_suggestions c);
            security_concerns := default_list (cc_security_concerns c) |}
  end.

(** [CreativeContent]: six required fields, none of them constrained;
    [word_count] is declared as [Field(..., description="Word count")]. *)
Definition validate_creative (c : CreativeCandidate) : Result CreativeContent :=
  Ok {| content_type := cr_content_type c;
        title := cr_title c;
        content := cr_content c;
        target_audience := cr_target_audience c;
        tone := cr_tone c;
        word_count := cr_word_count c |}.

(** ** models.py: the shared context *)

(** One dictionary of [conversation_history]:
    [{"role", "content", "agent", "timestamp"}]. *)
Record ConversationEntry := {
  entry_role : string;
  entry_content : string;
  entry_agent : string;
  entry_timestamp : string
}.

(** The values stored in [agent_results] (declared [Dict[str, Any]]). *)
Inductive AgentResult :=
| ResearchOutput (r : ResearchResult)
| CodeOutput (c : CodeAnalysis)
| CreativeOutput (c : CreativeContent).

Record MultiAgentContext := {
  conversation_history : list ConversationEntry;
  task_history : list TaskSummary;
  agent_results : gmap string AgentResult;
  session_id : string
}.

(** [MultiAgentContext.get_recent_context]: a read of [conversation_history]. *)
Definition render_entry (e : ConversationEntry) : string :=
  "[" +:+ entry_agent e +:+ "] " +:+ entry_role e +:+ ": " +:+ entry_content e.

Definition get_recent_context (self : MultiAgentContext) (limit : Z) : string :=
  let recent :=
    match conversation_history self with
    | [] => []
    | _ :: _ => Py.last_slice limit (conversation_history self)
    end in
  Py.join Py.nl (map render_entry recent).

(** ** models.py: result formatting *)

Definition format_research_result (result : ResearchResult) : string :=
  let output := "📊 Topic: " +:+ topic result +:+ Py.nl in
  let output := output +:+ "📝 Summary: " +:+ summary result +:+ Py.nl in
  let output := output +:+ "🔑 Key Points:" +:+ Py.nl in
  let output :=
    fold_left (fun out ip => out +:+ "   " +:+ Py.str_int (fst ip) +:+ ". " +:+ snd ip +:+ Py.nl)
              (Py.enumerate 1 (key_points result)) output in
  let output := output +:+ "📈 Confidence: " +:+ confidence_level result +:+ Py.nl in
  match sources_needed result with
  | [] => output
  | _ :: _ =>
      output +:+ "📚 Recommended Sources: " +:+ Py.join ", " (sources_needed result) +:+ Py.nl
  end.

Definition bullets (head : string) (items : list string) (output : string) : string :=
  match items with
  | [] => output
  | _ :: _ =>
      fold_left (fun out item => out +:+ "   • " +:+ item +:+ Py.nl) items
                (output +:+ head +:+ Py.nl)
  end.

Definition format_code_result (result : CodeAnalysis) : string :=
  let output := "💻 Language: " +:+ language result +:+ Py.nl in
  let output := output +:+ "📊 Complexity Score: " +:+ Py.str_int (complexity_score result) +:+ "/10" +:+ Py.nl in
  let output := bullets "⚠️  Issues Found:" (issues_found result) output in
  let output := bullets "💡 Suggestions:" (suggestions result) output in
  bullets "🔒 Security Concerns:" (security_concerns result) output.

Definition format_creative_result (result : CreativeContent) : string :=
  let output := "✍️  Content Type: " +:+ content_type result +:+ Py.nl in
  let output := output +:+ "📝 Title: " +:+ title result +:+ Py.nl in
  let output := output +:+ "🎯 Audience: " +:+ target_audience result +:+ " | Tone: " +:+ tone result +:+ Py.nl in
  let output := output +:+ "📊 Word Count: " +:+ Py.str_int (word_count result) +:+ Py.nl in
  output +:+ "📄 Content:" +:+ Py.nl +:+ content result +:+ Py.nl.

(** ** The world around the program *)

(** One request to a language model, as it was answered: which agent asked,
    with which prompt, and whether [Agent.run] got a usable answer. *)
Record Exchange := {
  ex_agent : string;
  ex_prompt : string;
  ex_ok : bool
}.

Record World := {
  environ : gmap string string;      (* [os.environ] once [load_dotenv()] ran *)
  clock : nat;                       (* advances at every clock read and model call *)
  stdin : list string;               (* the lines [input()] will return *)
  stdout : list string;              (* what [print] wrote, oldest first *)
  exchanges : list Exchange;         (* the model calls made, oldest first *)
  context : MultiAgentContext;       (* [self.context] / [ctx.deps] of the system in scope *)
  is_running : bool                  (* [self.is_running] *)
}.

Definition set_context (c : MultiAgentContext) (w : World) : World :=
  {| environ := environ w; clock := clock w; stdin := stdin w; stdout := stdout w;
     exchanges := exchanges w; context := c; is_running := is_running w |}.

Definition set_clock (n : nat) (w : World) : World :=
  {| environ := environ w; clock := n; stdin := stdin w; stdout := stdout w;
     exchanges := exchanges w; context := context w; is_running := is_running w |}.

Definition set_stdin (l : list string) (w : World) : World :=
  {| environ := environ w; clock := clock w; stdin := l; stdout := stdout w;
     exchanges := exchanges w; context := context w; is_running := is_running w |}.

Definition set_stdout (l : list string) (w : World) : World :=
  {| environ := environ w; clock := clock w; stdin := stdin w; stdout := l;
     exchanges := exchanges w; context := context w; is_running := is_running w |}.

Definition set_exchanges (l : list Exchange) (w : World) : World :=
  {| environ := environ w; clock := clock w; stdin := stdin w; stdout := stdout w;
     exchanges := l; context := context w; is_running := is_running w |}.

Definition set_is_running (b : bool) (w : World) : World :=
  {| environ := environ w; clock := clock w; stdin := stdin w; stdout := stdout w;
     exchanges := exchanges w; context := context w; is_running := b |}.

(** *** The monad: state with exceptions; the state survives a raise. *)

Definition M (A : Type) : Type := World -> Result A * World.

Definition ret {A} (a : A) : M A := fun w => (Ok a, w).

Definition bind {A B} (m : M A) (k : A -> M B) : M B :=
  fun w =>
    match m w with
    | (Ok a, w') => k a w'
    | (Raise e, w') => (Raise e, w')
    end.

Definition raise {A} (e : Exn) : M A := fun w => (Raise e, w).

(** [try: body  except Exception as e: handler(e)]. *)
Definition try_except {A} (body : M A) (handler : Exn -> M A) : M A :=
  fun w =>
    match body w with
    | (Ok a, w') => (Ok a, w')
    | (Raise e, w') => handler e w'
    end.

Definition gets {A} (f : World -> A) : M A := fun w => (Ok (f w), w).

Definition modify (f : World -> World) : M unit := fun w => (Ok tt, f w).

Declare Scope py_scope.
Delimit Scope py_scope with py.
Notation "'let*' x ':=' m 'in' k" := (bind m (fun x => k))
  (at level 10, x name, m at level 100, k at level 200) : py_scope.
Notation "m '>>' k" := (bind m (fun _ => k))
  (at level 100, k at level 200, right associativity) : py_scope.
Local Open Scope py_scope.

(** [print(s, end='')] and [print(s)]. *)
Definition write (s : string) : M unit :=
  modify (fun w => set_stdout (stdout w ++ [s]) w).

Definition print (s : string) : M unit := write (s +:+ Py.nl).

(** [input()]: the next line of stdin, [EOFError] when there is none. *)
Definition read_line : M string :=
  fun w =>
    match stdin w with
    | [] => (Raise EOFError, w)
    | l :: rest => (Ok l, set_stdin rest w)
    end.

(** [input(prompt)]: the prompt is written first. *)
Definition input (prompt : string) : M string := write prompt >> read_line.

(** [os.getenv(k)]. *)
Definition getenv (k : string) : M (option string) := gets (fun w => environ w !! k).

(** ** The coordinator's tools, seen from the model

    The coordinator agent answers a prompt either with its final text, or by
    calling one of the five tools registered with [@coordinator_agent.tool]
    and going on from what the tool returned, or not at all (the backend
    fails).  A conversation is a finite tree of such answers. *)

Inductive ToolCall :=
| DelegateResearch (topic : string)
| DelegateCodeAnalysis (code : string) (language : option string)
| DelegateContentCreation (content_request : string)
                          (content_type audience tone : option string)
| GetTaskHistory
| ComplexResearchAnalysis (topic : string).

Inductive ToolReturn :=
| ReturnedResearch (r : ResearchResult)
| ReturnedCode (c : CodeAnalysis)
| ReturnedCreative (c : CreativeContent)
| ReturnedText (s : string).

Inductive Coordinator :=
| FinalOutput (text : string)
| ModelFailure (e : Exn)
| UseTool (call : ToolCall) (next : ToolReturn -> Coordinator).

(** What a specialist's backend gives for one prompt. *)
Inductive Outcome (A : Type) :=
| Answer (candidate : A)
| Unreachable (msg : string).
Arguments Answer {A} candidate.
Arguments Unreachable {A} msg.

(** Everything the program does not decide: the wall clock and the answers
    of the language models, each indexed by the moment of the call, so that
    the same prompt may be answered differently at different times. *)
Record External := {
  isoformat : nat -> string;          (* [datetime.now().isoformat()] *)
  session_stamp : nat -> string;      (* [datetime.now().strftime("%Y%m%d_%H%M%S")] *)
  research_backend : nat -> string -> Outcome ResearchCandidate;
  code_backend : nat -> string -> Outcome CodeCandidate;
  creative_backend : nat -> string -> Outcome CreativeCandidate;
  coordinator_backend : nat -> string -> Coordinator
}.

Definition log_exchange (name prompt : string) (ok : bool) (w : World) : World :=
  set_exchanges (exchanges w ++ [{| ex_agent := name; ex_prompt := prompt; ex_ok := ok |}]) w.

Definition advance (w : World) : World := set_clock (S (clock w)) w.

Section Program.

Variable ext : External.

(** [datetime.now().isoformat()]. *)
Definition now_isoformat : M string :=
  fun w => (Ok (isoformat ext (clock w)), advance w).

(** *** models.py: methods of [MultiAgentContext] *)

(** [MultiAgentContext()]. *)
Definition new_context : M MultiAgentContext :=
  fun w =>
    (Ok {| conversation_history := [];
           task_history := [];
           agent_results := ∅;
           session_id := session_stamp ext (clock w) |},
     advance w).

Definition add_conversation (role content agent_name : string) : M unit :=
  let* ts := now_isoformat in
  modify (fun w =>
    let self := context w in
    set_context
      {| conversation_history :=
           conversation_history self ++
             [{| entry_role := role; entry_content := content;
                 entry_agent := agent_name; entry_timestamp := ts |}];
         task_history := task_history self;
         agent_results := agent_results self;
         session_id := session_id self |} w).

Definition add_task_result (task_summary : TaskSummary) : M unit :=
  modify (fun w =>
    let self := context w in
    set_context
      {| conversation_history := conversation_history self;
         task_history := task_history self ++ [task_summary];
         agent_results := agent_results self;
         session_id := session_id self |} w).

Definition store_agent_result (agent_name : string) (result : AgentResult) : M unit :=
  modify (fun w =>
    let self := context w in
    set_context
      {| conversation_history := conversation_history self;
         task_history := task_history self;
         agent_results := <[agent_name := result]> (agent_results self);
         session_id := session_id self |} w).

(** [TaskSummary(task_type=..., agents_used=..., status=..., result_summary=...)]:
    the timestamp comes from its [default_factory]. *)
Definition new_task_summary (ty : string) (agents : list string)
           (st res : string) : M TaskSummary :=
  let* ts := now_isoformat in
  ret {| task_type := ty; agents_used := agents; status := st;
         result_summary := res; timestamp := ts |}.

(** *** agents.py: the model and the specialist agents *)

Inductive GeminiModel := mkGeminiModel (model_name : string).

Definition get_gemini_model : M GeminiModel :=
  let* api_key := getenv "GEMINI_API_KEY" in
  match api_key with
  | Some (String _ _) => ret (mkGeminiModel "gemini-2.0-flash-exp")
  | Some EmptyString | None =>
      raise (ValueError "Please set GEMINI_API_KEY in your .env file")
  end.

(** [await agent.run(prompt, deps=...)] followed by [.output], for an
    agent with an [output_type]: one call of the backend, whose candidate
    is checked against the schema.  A backend failure or a rejected
    candidate is raised to the caller.  The answer of the backend stands
    for what the agent library ends with, after any retry of its own: one
    [Exchange] is one [Agent.run], not one request of the library, and
    [SchemaViolation] stands for the exception the library raises when it
    gives up on a rejected output, whatever its own text.  The specialists
    have no tools, so the context they are given is not written. *)
Definition agent_run {C R} (name : string)
           (backend : nat -> string -> Outcome C)
           (validate : C -> Result R) (prompt : string) : M R :=
  fun w =>
    match backend (clock w) prompt with
    | Unreachable msg =>
        (Raise (BackendUnavailable msg), log_exchange name prompt false (advance w))
    | Answer c =>
        match validate c with
        | Ok r => (Ok r, log_exchange name prompt true (advance w))
        | Raise e => (Raise e, log_exchange name prompt false (advance w))
        end
    end.

Definition research_agent_run : string -> M ResearchResult :=
  agent_run "research_agent" (research_backend ext) validate_research.

Definition code_agent_run : string -> M CodeAnalysis :=
  agent_run "code_agent" (code_backend ext) validate_code.

Definition creative_agent_run : string -> M CreativeContent :=
  agent_run "creative_agent" (creative_backend ext) validate_creative.

(** *** agents.py: the tools *)

Definition delegate_research (topic' : string) : M ResearchResult :=
  add_conversation "system" ("Delegating research: " +:+ topic') "coordinator" >>
  let* research_data := research_agent_run ("Research this topic: " +:+ topic') in
  store_agent_result "research_agent" (ResearchOutput research_data) >>
  let* task_summary :=
    new_task_summary "research" ["research_agent"] "completed"
      ("Researched: " +:+ topic research_data +:+ " (Confidence: "
         +:+ confidence_level research_data +:+ ")") in
  add_task_result task_summary >>
  ret research_data.

Definition delegate_code_analysis (code language' : string) : M CodeAnalysis :=
  add_conversation "system" ("Delegating code analysis for " +:+ language') "coordinator" >>
  let* code_data :=
    code_agent_run ("Analyze this " +:+ language' +:+ " code:" +:+ Py.nl +:+ Py.nl
                      +:+ "```" +:+ Py.nl +:+ code +:+ Py.nl +:+ "```") in
  store_agent_result "code_agent" (CodeOutput code_data) >>
  let* task_summary :=
    new_task_summary "code_analysis" ["code_agent"] "completed"
      ("Analyzed " +:+ language code_data +:+ " code (Complexity: "
         +:+ Py.str_int (complexity_score code_data) +:+ "/10)") in
  add_task_result task_summary >>
  ret code_data.

Definition delegate_content_creation
           (content_request content_type' audience tone' : string) : M CreativeContent :=
  add_conversation "system" ("Delegating content creation: " +:+ content_type') "coordinator" >>
  let prompt := "Create " +:+ content_type' +:+ " content about: " +:+ content_request
                  +:+ ". Target audience: " +:+ audience +:+ ". Tone: " +:+ tone' in
  let* creative_data := creative_agent_run prompt in
  store_agent_result "creative_agent" (CreativeOutput creative_data) >>
  let* task_summary :=
    new_task_summary "content_creation" ["creative_agent"] "completed"
      ("Created " +:+ content_type creative_data +:+ ": " +:+ title creative_data
         +:+ " (" +:+ Py.str_int (word_count creative_data) +:+ " words)") in
  add_task_result task_summary >>
  ret creative_data.

(** [get_task_history]: a read of the context. *)
Definition render_task (out : string) (it : Z * TaskSummary) : string :=
  let (i, task) := it in
  let out := out +:+ Py.str_int i +:+ ". " +:+ Py.upper (task_type task) +:+ ": "
                 +:+ result_summary task +:+ Py.nl in
  out +:+ "   Agents: " +:+ Py.join ", " (agents_used task) +:+ " | Status: "
      +:+ status task +:+ Py.nl +:+ Py.nl.

Definition task_history_header (deps : MultiAgentContext) : string :=
  "📊 Session " +:+ session_id deps +:+ " - " +:+ Py.str_len (task_history deps)
    +:+ " tasks completed:" +:+ Py.nl +:+ Py.nl.

Definition get_task_history (deps : MultiAgentContext) : string :=
  match task_history deps with
  | [] => "No tasks completed yet in this session."
  | _ :: _ =>
      fold_left render_task
                (Py.enumerate 1 (Py.last_slice 5 (task_history deps)))
                (task_history_header deps)
  end.

Definition complex_research_analysis (topic' : string) : M string :=
  add_conversation "system" ("Starting complex analysis: " +:+ topic') "coordinator" >>
  let* research_result := delegate_research topic' in
  let report_request :=
    "Create a comprehensive report based on this research: " +:+ summary research_result
      +:+ ". Include the key points: " +:+ Py.join ", " (key_points research_result) in
  let* content_result :=
    delegate_content_creation report_request "report" "professional" "analytical" in
  let* task_summary :=
    new_task_summary "complex_analysis" ["research_agent"; "creative_agent"] "completed"
      ("Complex analysis of '" +:+ topic' +:+ "' with research and report generation") in
  add_task_result task_summary >>
  ret ("🔍 RESEARCH COMPLETED" +:+ Py.nl +:+ format_research_result research_result
         +:+ Py.nl +:+ Py.nl +:+ "📄 ANALYSIS REPORT" +:+ Py.nl
         +:+ format_creative_result content_result).

(** *** The coordinator agent at work *)

(** One tool call, with the defaults of the tool's signature filled in. *)
Definition run_tool (call : ToolCall) : M ToolReturn :=
  match call with
  | DelegateResearch t =>
      let* r := delegate_research t in ret (ReturnedResearch r)
  | DelegateCodeAnalysis code lang =>
      let* r := delegate_code_analysis code (default "auto-detect" lang) in
      ret (ReturnedCode r)
  | DelegateContentCreation request ctype audience tn =>
      let* r := delegate_content_creation request (default "article" ctype)
                  (default "general" audience) (default "professional" tn) in
      ret (ReturnedCreative r)
  | GetTaskHistory =>
      let* deps := gets context in ret (ReturnedText (get_task_history deps))
  | ComplexResearchAnalysis t =>
      let* s := complex_research_analysis t in ret (ReturnedText s)
  end.

(** The coordinator's conversation: every node is one request to its
    model; a tool's exception ends the run and reaches the caller. *)
Fixpoint run_coordinator (user_input : string) (c : Coordinator) : M string :=
  match c with
  | FinalOutput text =>
      modify (fun w => log_exchange "coordinator" user_input true (advance w)) >>
      ret text
  | ModelFailure e =>
      modify (fun w => log_exchange "coordinator" user_input false (advance w)) >>
      raise e
  | UseTool call next =>
      modify (fun w => log_exchange "coordinator" user_input true (advance w)) >>
      let* r := run_tool call in
      run_coordinator user_input (next r)
  end.

(** [await coordinator_agent.run(user_input, deps=self.context)], then
    [str(result.output)]: the coordinator has no [output_type], its output
    is the final text of the conversation. *)
Definition coordinator_agent_run (user_input : string) : M string :=
  fun w => run_coordinator user_input (coordinator_backend ext (clock w) user_input) w.

(** *** multi_agent.py: [MultiAgentSystem.process_request] *)

Definition error_prefix : string := "❌ Error processing request: ".

Definition process_request (user_input : string) : M string :=
  try_except
    (add_conversation "user" user_input "user" >>
     let* response := coordinator_agent_run user_input in
     add_conversation "assistant" response "coordinator" >>
     ret response)
    (fun e =>
       let error_msg := error_prefix +:+ exn_str e in
       add_conversation "system" error_msg "error" >>
       ret error_msg).

(** *** main.py: the stand-alone research agent

    Its [ResearchResult] is declared as in models.py, and its
    [research_topic] turns every exception into [None]. *)
Definition research_topic (topic' : string) : M (option ResearchResult) :=
  try_except
    (print ("🔍 Researching: " +:+ topic') >>
     print "⏳ Please wait..." >>
     let* output := research_agent_run ("Research this topic: " +:+ topic') in
     ret (Some output))
    (fun e => print ("❌ Error during research: " +:+ exn_str e) >> ret None).

(** *** multi_agent.py: the session driver *)

(** [MultiAgentSystem()]: a fresh context, [is_running = False]. *)
Definition new_system : M unit :=
  let* c := new_context in
  modify (fun w => set_is_running false (set_context c w)).

(** A system bound to a local variable of a function: the body works on
    the new system, and the caller's system is as it was afterwards. *)
Definition with_local_system {A} (body : M A) : M A :=
  fun w =>
    match (new_system >> body) w with
    | (r, w') => (r, set_is_running (is_running w) (set_context (context w) w'))
    end.

Definition session_banner : list string :=
  [ "🤖 MULTI-AGENT SYSTEM STARTED!";
    Py.repeat_str "=" 50;
    "Available agents:";
    "  🔍 Research Agent - Topic research and analysis";
    "  💻 Code Agent - Code analysis and review";
    "  ✍️  Creative Agent - Content creation and writing";
    "  🎭 Coordinator - Orchestrates all agents";
    EmptyString;
    "Commands:";
    "  • Type any request and agents will coordinate automatically";
    "  • 'history' - View task history";
    "  • 'quit' or 'exit' - Stop the system";
    Py.repeat_str "=" 50 ].

Fixpoint print_all (lines : list string) : M unit :=
  match lines with
  | [] => ret tt
  | l :: r => print l >> print_all r
  end.

Inductive Turn := Break | Continue.

(** [RunContext(self.context)], as the session driver writes it.  The
    library's [RunContext] has further required fields ([model] and
    [usage]); built from the deps alone it raises [TypeError], so that the
    call of [get_task_history] written around it is never reached. *)
Definition run_context_of (deps : MultiAgentContext) : M MultiAgentContext :=
  raise (TypeError
    "RunContext.__init__() missing 2 required positional arguments: 'model' and 'usage'").

(** One pass through the body of [while self.is_running]. *)
Definition session_turn : M Turn :=
  try_except
    (let* line := input (Py.nl +:+ "💬 You: ") in
     let user_input := Py.strip line in
     let cmd := Py.lower user_input in
     if bool_decide (cmd ∈ ["quit"; "exit"; "bye"; "q"]) then
       print "👋 Multi-Agent System shutting down. Goodbye!" >> ret Break
     else if bool_decide (cmd = "history") then
       let* deps := gets context in
       let* ctx := run_context_of deps in
       print (Py.nl +:+ get_task_history ctx) >> ret Continue
     else if negb (Py.truthy user_input) then ret Continue
     else
       print (Py.nl +:+ "🤖 Coordinating agents...") >>
       let* response := process_request user_input in
       print (Py.nl +:+ "📋 Response:" +:+ Py.nl +:+ response) >> ret Continue)
    (fun e => print (Py.nl +:+ "❌ Error: " +:+ exn_str e) >> ret Continue).

Inductive LoopEnd := Finished | OutOfFuel.

(** The [while] loop, for at most [fuel] turns. *)
Fixpoint session_loop (fuel : nat) : M LoopEnd :=
  match fuel with
  | O => ret OutOfFuel
  | S fuel' =>
      let* running := gets is_running in
      if running then
        let* t := session_turn in
        match t with
        | Break => ret Finished
        | Continue => session_loop fuel'
        end
      else ret Finished
  end.

Definition run_interactive_session (fuel : nat) : M LoopEnd :=
  print_all session_banner >>
  modify (set_is_running true) >>
  session_loop fuel.

Definition examples : list string :=
  [ "Research quantum computing trends";
    "Analyze this Python code: def factorial(n): return 1 if n <= 1 else n * factorial(n-1)";
    "Write a professional email about project updates";
    "Do a complex analysis on artificial intelligence impact on healthcare" ].

Fixpoint run_examples_from (l : list (Z * string)) : M unit :=
  match l with
  | [] => ret tt
  | (i, example) :: rest =>
      print (Py.nl +:+ Py.str_int i +:+ ". Example: " +:+ example) >>
      print (Py.repeat_str "-" 40) >>
      let* response := process_request example in
      print ("Response: " +:+ Py.take_chars 200 response +:+ "...") >>
      print EmptyString >>
      run_examples_from rest
  end.

Definition run_multi_agent_examples : M unit :=
  with_local_system
    (print "🧪 MULTI-AGENT EXAMPLES" >>
     print (Py.repeat_str "=" 30) >>
     run_examples_from (Py.enumerate 1 examples) >>
     print "✅ Examples completed!").

Definition env_truthy (v : option string) : bool :=
  match v with Some s => Py.truthy s | None => false end.

(** [main()] of multi_agent.py. *)
Definition main (fuel : nat) : M unit :=
  print "🚀 Initializing Multi-Agent System..." >>
  let* key := getenv "GEMINI_API_KEY" in
  if negb (env_truthy key) then
    print "❌ GEMINI_API_KEY not found!" >>
    print "Please create a .env file with: GEMINI_API_KEY=your_api_key_here"
  else
    try_except
      (print "🔧 Testing agent coordination..." >>
       new_system >>
       let* test_response :=
         process_request "Hello, can you help me research Python programming?" in
       if (Py.truthy test_response && negb (Py.startswith "❌" test_response))%bool then
         print "✅ Multi-agent system ready!" >>
         write (Py.nl +:+ "🧪 Run examples first? (y/n): ") >>
         let* answer := read_line in
         (if Py.startswith "y" (Py.lower answer) then run_multi_agent_examples else ret tt) >>
         run_interactive_session fuel >>
         ret tt
       else
         print "❌ System test failed. Please check your setup.")
      (fun e =>
         print ("❌ Fatal error: " +:+ exn_str e) >>
         print "Please check your API key and internet connection.").

(** Importing agents.py builds the four agents at module level, each with
    [model=get_gemini_model()]. *)
Definition import_agents : M unit :=
  get_gemini_model >> get_gemini_model >> get_gemini_model >> get_gemini_model >>
  ret tt.

(** Running multi_agent.py as a script: its imports, then
    [asyncio.run(main())].  A [Raise] at this level is an uncaught
    exception: the interpreter reports it and the process ends. *)
Definition multi_agent_script (fuel : nat) : M unit :=
  import_agents >> main fuel.

End Program.

(** ** Notions used to state the properties *)

Local Open Scope list_scope.

(** The number of words of a text, as [len(s.split())] counts them.  The
    sources never compute it; it is the measure against which the
    [word_count] of a [CreativeContent] can be compared. *)
Fixpoint count_words_from (in_word : bool) (s : string) : nat :=
  match s with
  | EmptyString => O
  | String c r =>
      if Py.is_space c then count_words_from false r
      else ((if in_word then 0 else 1) + count_words_from true r)%nat
  end.

Definition count_words (s : string) : nat := count_words_from false s.

(** [grows w w' cs ts xs]: from [w] to [w'] the conversation history gained
    exactly [cs], the task history exactly [ts], the log of model calls
    exactly [xs], all at the end; the session id, the environment, the
    console and the running flag are the same. *)
Definition grows (w w' : World) (cs : list ConversationEntry)
           (ts : list TaskSummary) (xs : list Exchange) : Prop :=
  conversation_history (context w') = conversation_history (context w) ++ cs /\
  task_history (context w') = task_history (context w) ++ ts /\
  exchanges w' = exchanges w ++ xs /\
  session_id (context w') = session_id (context w) /\
  environ w' = environ w /\ stdin w' = stdin w /\ stdout w' = stdout w /\
  is_running w' = is_running w.

(** The entry a tool writes when it starts. *)
Definition system_entry (text ts : string) : ConversationEntry :=
  {| entry_role := "system"; entry_content := text;
     entry_agent := "coordinator"; entry_timestamp := ts |}.

Definition system_only (cs : list ConversationEntry) : Prop :=
  Forall (fun e => entry_role e = "system") cs.

(** Task records naming exactly the agent [a]. *)
Definition records_of (a : string) (ts : list TaskSummary) : nat :=
  length (filter (fun t => agents_used t = [a]) ts).

(** Calls of the agent [a] that gave a result. *)
Definition accepted_of (a : string) (xs : list Exchange) : nat :=
  length (filter (fun x => ex_agent x = a /\ ex_ok x = true) xs).

(** Calls of the agent [a], whatever their outcome. *)
Definition calls_of (a : string) (xs : list Exchange) : nat :=
  length (filter (fun x => ex_agent x = a) xs).

(** Every specialist has as many single-agent records as accepted calls. *)
Definition tallied (ts : list TaskSummary) (xs : list Exchange) : Prop :=
  forall a, a <> "coordinator" -> records_of a ts = accepted_of a xs.

Definition entries_with_role (r : string) (cs : list ConversationEntry) : list ConversationEntry :=
  filter (fun e => entry_role e = r) cs.

(** The three records of a completed complex analysis. *)
Definition research_record (r : ResearchResult) (ts : string) : TaskSummary :=
  {| task_type := "research"; agents_used := ["research_agent"]; status := "completed";
     result_summary := "Researched: " +:+ topic r +:+ " (Confidence: "
                         +:+ confidence_level r +:+ ")";
     timestamp := ts |}.

Definition code_record (c : CodeAnalysis) (ts : string) : TaskSummary :=
  {| task_type := "code_analysis"; agents_used := ["code_agent"]; status := "completed";
     result_summary := "Analyzed " +:+ language c +:+ " code (Complexity: "
                         +:+ Py.str_int (complexity_score c) +:+ "/10)";
     timestamp := ts |}.

Definition content_record (c : CreativeContent) (ts : string) : TaskSummary :=
  {| task_type := "content_creation"; agents_used := ["creative_agent"]; status := "completed";
     result_summary := "Created " +:+ content_type c +:+ ": " +:+ title c
                         +:+ " (" +:+ Py.str_int (word_count c) +:+ " words)";
     timestamp := ts |}.

Definition complex_record (topic' ts : string) : TaskSummary :=
  {| task_type := "complex_analysis"; agents_used := ["research_agent"; "creative_agent"];
     status := "completed";
     result_summary := "Complex analysis of '" +:+ topic' +:+ "' with research and report generation";
     timestamp := ts |}.

Definition research_prompt (topic' : string) : string := "Research this topic: " +:+ topic'.

Definition code_prompt (code language' : string) : string :=
  "Analyze this " +:+ language' +:+ " code:" +:+ Py.nl +:+ Py.nl
    +:+ "```" +:+ Py.nl +:+ code +:+ Py.nl +:+ "```".

Definition content_prompt (content_request content_type' audience tone' : string) : string :=
  "Create " +:+ content_type' +:+ " content about: " +:+ content_request
    +:+ ". Target audience: " +:+ audience +:+ ". Tone: " +:+ tone'.

Definition exchange (a p : string) (ok : bool) : Exchange :=
  {| ex_agent := a; ex_prompt := p; ex_ok := ok |}.

(** From [w] to [w'] the task history gained one record, of the given kind,
    naming the given agent alone, completed. *)
Definition appended_single (w w' : World) (kind agent_name : string) : Prop :=
  exists t,
    task_history (context w') = task_history (context w) ++ [t] /\
    task_type t = kind /\ agents_used t = [agent_name] /\
    length (agents_used t) = 1%nat /\ status t = "completed".

(** What a complex analysis asks of the report writer, and what it returns. *)
Definition report_request (r : ResearchResult) : string :=
  "Create a comprehensive report based on this research: " +:+ summary r
    +:+ ". Include the key points: " +:+ Py.join ", " (key_points r).

Definition complex_response (r : ResearchResult) (c : CreativeContent) : string :=
  "🔍 RESEARCH COMPLETED" +:+ Py.nl +:+ format_research_result r
    +:+ Py.nl +:+ Py.nl +:+ "📄 ANALYSIS REPORT" +:+ Py.nl +:+ format_creative_result c.

(** The entries [process_request] itself writes. *)
Definition user_entry (text ts : string) : ConversationEntry :=
  {| entry_role := "user"; entry_content := text;
     entry_agent := "user"; entry_timestamp := ts |}.

Definition assistant_entry (text ts : string) : ConversationEntry :=
  {| entry_role := "assistant"; entry_content := text;
     entry_agent := "coordinator"; entry_timestamp := ts |}.

Definition error_entry (text ts : string) : ConversationEntry :=
  {| entry_role := "system"; entry_content := text;
     entry_agent := "error"; entry_timestamp := ts |}.

(** The world in which the coordinator starts on a request: the user's
    entry is already written. *)
Definition request_received (ext : External) (user_input : string) (w : World) : World :=
  snd (add_conversation ext "user" user_input "user" w).

(** Calls of a specialist, that is of any agent but the coordinator. *)
Definition specialist_calls (xs : list Exchange) : nat :=
  length (filter (fun x => ex_agent x <> "coordinator") xs).

(** The shape a call of [process_request] would have if it always ended
    with the assistant's entry and every specialist call left a record:
    the entries added begin with the only user entry and end with the only
    assistant entry, and there are as many new task records as specialist
    calls. *)
Definition one_user_one_assistant_one_record_per_call
           (ext : External) (user_input : string) (w : World) : Prop :=
  let w' := snd (process_request ext user_input w) in
  exists cs ts xs,
    conversation_history (context w') = conversation_history (context w) ++ cs /\
    task_history (context w') = task_history (context w) ++ ts /\
    exchanges w' = exchanges w ++ xs /\
    (entry_role <$> head cs) = Some "user" /\
    length (entries_with_role "user" cs) = 1%nat /\
    (entry_role <$> last cs) = Some "assistant" /\
    length (entries_with_role "assistant" cs) = 1%nat /\
    length ts = specialist_calls xs.

(** ** Sample worlds *)

Module Sample.

Definition research_ok : ResearchCandidate :=
  {| rc_topic := "AI impact on healthcare";
     rc_summary := "AI supports diagnosis and triage";
     rc_key_points := ["imaging"; "triage"; "drug discovery"];
     rc_confidence_level := "Medium";
     rc_sources_needed := None |}.

Definition research_with (n : nat) : ResearchCandidate :=
  {| rc_topic := "quantum computing";
     rc_summary := "early";
     rc_key_points := replicate n "point";
     rc_confidence_level := "Low";
     rc_sources_needed := Some ["survey"] |}.

Definition code_ok : CodeCandidate :=
  {| cc_language := "Python"; cc_complexity_score := 2;
     cc_issues_found := None; cc_suggestions := Some ["memoize"];
     cc_security_concerns := None |}.

(** A report of two words announced as one hundred words long. *)
Definition report : CreativeCandidate :=
  {| cr_content_type := "report"; cr_title := "AI in care";
     cr_content := "two words"; cr_target_audience := "professional";
     cr_tone := "analytical"; cr_word_count := 100 |}.

Definition external (research : Outcome ResearchCandidate)
           (creative : Outcome CreativeCandidate) (plan : Coordinator) : External :=
  {| isoformat := fun n => "2025-01-01T00:00:" +:+ Py.str_int (Z.of_nat n);
     session_stamp := fun n => "20250101_0000" +:+ Py.str_int (Z.of_nat n);
     research_backend := fun _ _ => research;
     code_backend := fun _ _ => Answer code_ok;
     creative_backend := fun _ _ => creative;
     coordinator_backend := fun _ _ => plan |}.

(** The coordinator calls one tool and answers with what it said. *)
Definition relay (call : ToolCall) : Coordinator :=
  UseTool call (fun r =>
    match r with
    | ReturnedText s => FinalOutput s
    | ReturnedResearch r => FinalOutput (format_research_result r)
    | ReturnedCode c => FinalOutput (format_code_result c)
    | ReturnedCreative c => FinalOutput (format_creative_result c)
    end).

Definition healthy : External :=
  external (Answer research_ok) (Answer report)
           (relay (ComplexResearchAnalysis "AI impact on healthcare")).

(** The report writer cannot be reached. *)
Definition writer_down : External :=
  external (Answer research_ok) (Unreachable "creative backend timed out")
           (relay (ComplexResearchAnalysis "AI impact on healthcare")).

(** The research backend cannot be reached. *)
Definition research_down : External :=
  external (Unreachable "research backend timed out") (Answer report)
           (relay (DelegateResearch "quantum computing trends")).

Definition empty_context : MultiAgentContext :=
  {| conversation_history := []; task_history := [];
     agent_results := ∅; session_id := "20250101_000000" |}.

Definition world (env : gmap string string) : World :=
  {| environ := env; clock := 0; stdin := ["n"; "history"; "quit"]; stdout := [];
     exchanges := []; context := empty_context; is_running := false |}.

Definition configured : World := world {[ "GEMINI_API_KEY" := "secret" ]}.

Definition unconfigured : World := world ∅.

Definition task (n : Z) : TaskSummary :=
  {| task_type := "research"; agents_used := ["research_agent"]; status := "completed";
     result_summary := "task " +:+ Py.str_int n; timestamp := "t" |}.

Definition seven_tasks : MultiAgentContext :=
  {| conversation_history := [];
     task_history := map task [1; 2; 3; 4; 5; 6; 7];
     agent_results := ∅; session_id := "20250101_000000" |}.

Definition two_entries : MultiAgentContext :=
  {| conversation_history :=
       [ {| entry_role := "user"; entry_content := "hello";
            entry_agent := "user"; entry_timestamp := "t0" |};
         {| entry_role := "assistant"; entry_content := "hi";
            entry_agent := "coordinator"; entry_timestamp := "t1" |} ];
     task_history := []; agent_results := ∅; session_id := "20250101_000000" |}.

End Sample.

(** ** multi_agent.py: [MultiAgentSystem.stop] *)

Definition stop : M unit := modify (set_is_running false).

(** ** main.py: display and interactive mode of the stand-alone agent *)

Module ResearchCLI.

Section Driver.

Variable ext : External.

Fixpoint print_key_points (l : list (Z * string)) : M unit :=
  match l with
  | [] => ret tt
  | (i, point) :: rest =>
      print ("   " +:+ Py.str_int i +:+ ". " +:+ point) >> print_key_points rest
  end.

Fixpoint print_sources (l : list string) : M unit :=
  match l with
  | [] => ret tt
  | source :: rest => print ("   • " +:+ source) >> print_sources rest
  end.

(** [display_results(result)]; [None] is the only falsy result. *)
Definition display_results (result : option ResearchResult) : M unit :=
  match result with
  | None => print "❌ No results to display"
  | Some result =>
      print (Py.nl +:+ Py.repeat_str "=" 60) >>
      print ("📊 RESEARCH RESULTS: " +:+ topic result) >>
      print (Py.repeat_str "=" 60) >>
      print (Py.nl +:+ "📝 Summary:") >>
      print ("   " +:+ summary result) >>
      print (Py.nl +:+ "🔑 Key Points:") >>
      print_key_points (Py.enumerate 1 (key_points result)) >>
      print (Py.nl +:+ "📈 Confidence Level: " +:+ confidence_level result) >>
      (match sources_needed result with
       | [] => ret tt
       | _ :: _ =>
           print (Py.nl +:+ "📚 Recommended Sources:") >>
           print_sources (sources_needed result)
       end) >>
      print (Py.repeat_str "=" 60 +:+ Py.nl)
  end.

(** One pass through the body of [while True] in [interactive_mode]. *)
Definition interactive_turn : M Turn :=
  try_except
    (let* line := input (Py.nl +:+ "🔍 What would you like to research? ") in
     let topic' := Py.strip line in
     if bool_decide (Py.lower topic' ∈ ["quit"; "exit"; "q"]) then
       print "👋 Goodbye!" >> ret Break
     else if negb (Py.truthy topic') then
       print "Please enter a topic to research." >> ret Continue
     else
       let* result := research_topic ext topic' in
       display_results result >> ret Continue)
    (fun e => print ("❌ Error: " +:+ exn_str e) >> ret Continue).

Fixpoint interactive_loop (fuel : nat) : M LoopEnd :=
  match fuel with
  | O => ret OutOfFuel
  | S fuel' =>
      let* t := interactive_turn in
      match t with
      | Break => ret Finished
      | Continue => interactive_loop fuel'
      end
  end.

Definition interactive_mode (fuel : nat) : M LoopEnd :=
  print "🤖 Simple Research Agent Started!" >>
  print "Type your research topics or 'quit' to exit" >>
  print (Py.repeat_str "-" 40) >>
  interactive_loop fuel.

(** [main()] of main.py. *)
Definition main (fuel : nat) : M unit :=
  print "🚀 Initializing Research Agent..." >>
  let* key := getenv "GEMINI_API_KEY" in
  if negb (env_truthy key) then
    print "❌ GEMINI_API_KEY not found!" >>
    print "Please create a .env file with: GEMINI_API_KEY=your_api_key_here"
  else
    try_except
      (print (Py.nl +:+ "🧪 Testing agent with sample query...") >>
       let* sample_result := research_topic ext "artificial intelligence trends 2025" in
       (match sample_result with
        | Some _ => print "✅ Agent test successful!" >> display_results sample_result
        | None => ret tt
        end) >>
       interactive_mode fuel >>
       ret tt)
      (fun e =>
         print ("❌ Error: " +:+ exn_str e) >>
         print "Please check your API key and internet connection.").

(** Running main.py as a script: the module builds its research agent with
    [model=get_gemini_model()], then [asyncio.run(main())]. *)
Definition script (fuel : nat) : M unit :=
  get_gemini_model >> main fuel.

End Driver.

End ResearchCLI.

(** ** Further notions used to state properties *)

(** [s.isascii()].  On such a text [Py.lower] and [Py.upper] are Python's
    [lower] and [upper], which on other texts also map letters outside
    [A-Z] and [a-z]. *)
Definition isascii (s : string) : bool :=
  forallb (fun c => Nat.ltb (nat_of_ascii c) 128) (list_ascii_of_string s).

(** The text of one record in the task history report, with its number. *)
Definition task_text (it : Z * TaskSummary) : string :=
  Py.str_int (fst it) +:+ ". " +:+ Py.upper (task_type (snd it)) +:+ ": "
    +:+ result_summary (snd it) +:+ Py.nl
    +:+ "   Agents: " +:+ Py.join ", " (agents_used (snd it)) +:+ " | Status: "
    +:+ status (snd it) +:+ Py.nl +:+ Py.nl.

(** What one call of a tool leaves behind, in every way it can end: the
    entries it added to the conversation history, the records it added to
    the task history and the model calls it made, each list in the order
    of the writes. *)
Inductive tool_writes :
  list ConversationEntry -> list TaskSummary -> list Exchange -> Prop :=
| research_done t r s0 s1 :
    tool_writes [system_entry ("Delegating research: " +:+ t) s0]
                [research_record r s1]
                [exchange "research_agent" (research_prompt t) true]
| research_failed t s0 :
    tool_writes [system_entry ("Delegating research: " +:+ t) s0]
                []
                [exchange "research_agent" (research_prompt t) false]
| code_done code lang c s0 s1 :
    tool_writes [system_entry ("Delegating code analysis for " +:+ lang) s0]
                [code_record c s1]
                [exchange "code_agent" (code_prompt code lang) true]
| code_failed code lang s0 :
    tool_writes [system_entry ("Delegating code analysis for " +:+ lang) s0]
                []
                [exchange "code_agent" (code_prompt code lang) false]
| content_done request ctype audience tn c s0 s1 :
    tool_writes [system_entry ("Delegating content creation: " +:+ ctype) s0]
                [content_record c s1]
                [exchange "creative_agent" (content_prompt request ctype audience tn) true]
| content_failed request ctype audience tn s0 :
    tool_writes [system_entry ("Delegating content creation: " +:+ ctype) s0]
                []
                [exchange "creative_agent" (content_prompt request ctype audience tn) false]
| history_read :
    tool_writes [] [] []
| complex_done t r c s0 s1 s2 s3 s4 s5 :
    tool_writes [system_entry ("Starting complex analysis: " +:+ t) s0;
                 system_entry ("Delegating research: " +:+ t) s1;
                 system_entry ("Delegating content creation: " +:+ "report") s2]
                [research_record r s3; content_record c s4; complex_record t s5]
                [exchange "research_agent" (research_prompt t) true;
                 exchange "creative_agent"
                   (content_prompt (report_request r) "report" "professional" "analytical")
                   true]
| complex_research_failed t s0 s1 :
    tool_writes [system_entry ("Starting complex analysis: " +:+ t) s0;
                 system_entry ("Delegating research: " +:+ t) s1]
                []
                [exchange "research_agent" (research_prompt t) false]
| complex_writer_failed t r s0 s1 s2 s3 :
    tool_writes [system_entry ("Starting complex analysis: " +:+ t) s0;
                 system_entry ("Delegating research: " +:+ t) s1;
                 system_entry ("Delegating content creation: " +:+ "report") s2]
                [research_record r s3]
                [exchange "research_agent" (research_prompt t) true;
                 exchange "creative_agent"
                   (content_prompt (report_request r) "report" "professional" "analytical")
                   false].

(** What a run of the coordinator leaves behind: a request to the
    coordinator's model, then, as long as it asks for a tool, what that
    tool's call left and the next request; the run ends with a request
    that is answered by the final text or fails, or after a tool's call. *)
Inductive run_writes (user_input : string) :
  list ConversationEntry -> list TaskSummary -> list Exchange -> Prop :=
| run_final ok :
    run_writes user_input [] [] [exchange "coordinator" user_input ok]
| run_tool_then cs1 ts1 xs1 cs2 ts2 xs2 :
    tool_writes cs1 ts1 xs1 ->
    run_writes user_input cs2 ts2 xs2 ->
    run_writes user_input (cs1 ++ cs2) (ts1 ++ ts2)
               (exchange "coordinator" user_input true :: xs1 ++ xs2)
| run_tool_last cs1 ts1 xs1 :
    tool_writes cs1 ts1 xs1 ->
    run_writes user_input cs1 ts1 (exchange "coordinator" user_input true :: xs1).

(** The prompt of the multi-agent session. *)
Definition session_prompt : string := Py.nl +:+ "💬 You: ".

(** The lines that end the multi-agent session. *)
Definition quit_command (line : string) : Prop :=
  Py.lower (Py.strip line) ∈ ["quit"; "exit"; "bye"; "q"].

(** The lines that end the interactive mode of main.py. *)
Definition cli_quit_command (line : string) : Prop :=
  Py.lower (Py.strip line) ∈ ["quit"; "exit"; "q"].

(** The names under which the tools store results. *)
Definition specialist_names : list string :=
  ["research_agent"; "code_agent"; "creative_agent"].

(** From [w] to [w'] no stored result was removed, and only the entries of
    the three specialists may have been written. *)
Definition results_kept (w w' : World) : Prop :=
  (forall k, is_Some (agent_results (context w) !! k) ->
             is_Some (agent_results (context w') !! k)) /\
  (forall k, k ∉ specialist_names ->
             agent_results (context w') !! k = agent_results (context w) !! k).

(** A block of [format_code_result]: nothing for an empty list, else the
    heading and one bullet line per item. *)
Definition bullet_block (head : string) (items : list string) : string :=
  match items with
  | [] => EmptyString
  | _ :: _ =>
      head +:+ Py.nl +:+
        String.concat EmptyString (map (fun item => "   • " +:+ item +:+ Py.nl) items)
  end.

Definition key_point_line (ip : Z * string) : string :=
  "   " +:+ Py.str_int (fst ip) +:+ ". " +:+ snd ip +:+ Py.nl.

Module Sample2.

Definition code_with (score : Z) : CodeCandidate :=
  {| cc_language := "Python"; cc_complexity_score := score;
     cc_issues_found := Some ["recursion depth"]; cc_suggestions := None;
     cc_security_concerns := None |}.

(** A world whose stdin holds the given lines, with the key set and the
    session running. *)
Definition session (lines : list string) : World :=
  {| environ := {[ "GEMINI_API_KEY" := "secret" ]}; clock := 0; stdin := lines;
     stdout := []; exchanges := []; context := Sample.empty_context;
     is_running := true |}.

(** The coordinator's model cannot be reached. *)
Definition coordinator_down : External :=
  Sample.external (Answer Sample.research_ok) (Answer Sample.report)
                  (ModelFailure (BackendUnavailable "coordinator backend timed out")).

Definition entry (n : Z) : ConversationEntry :=
  {| entry_role := "user"; entry_content := "message " +:+ Py.str_int n;
     entry_agent := "user"; entry_timestamp := "t" |}.

Definition five_entries : MultiAgentContext :=
  {| conversation_history := map entry [1; 2; 3; 4; 5];
     task_history := []; agent_results := ∅; session_id := "20250101_000000" |}.

Definition three_tasks : MultiAgentContext :=
  {| conversation_history := [];
     task_history := map Sample.task [1; 2; 3];
     agent_results := ∅; session_id := "20250101_000000" |}.

End Sample2.

(** ** Strings *)

Lemma startswith_append (p s : string) : Py.startswith p (p +:+ s) = true.
Proof.
  unfold Py.startswith. induction p as [|a p IH]; simpl.
  - destruct s; reflexivity.
  - destruct (Ascii.ascii_dec a a) as [_|Hne]; [exact IH | congruence].
Qed.

(** ** Schema validation *)

Local Arguments String.append : simpl never.
Local Arguments Py.str_int : simpl never.
Local Arguments Py.join : simpl never.

Lemma check_items_ok {A} field lo hi (l l' : list A) :
  check_items field lo hi l = Ok l' -> l' = l /\ (lo <= length l <= hi)%nat.
Proof.
  unfold check_items.
  destruct (Nat.ltb_spec (length l) lo); [discriminate|].
  destruct (Nat.ltb_spec hi (length l)); [discriminate|].
  intros [= <-]. split; [reflexivity | lia].
Qed.

Lemma check_items_rejects {A} field lo hi (l : list A) :
  (length l < lo \/ hi < length l)%nat ->
  exists msg, check_items field lo hi l = Raise (SchemaViolation msg).
Proof.
  unfold check_items. intros Hout.
  destruct (Nat.ltb_spec (length l) lo); [eauto|].
  destruct (Nat.ltb_spec hi (length l)); [eauto|].
  lia.
Qed.

Lemma validate_research_ok c r :
  validate_research c = Ok r ->
  key_points r = rc_key_points c /\ (3 <= length (rc_key_points c) <= 5)%nat.
Proof.
  unfold validate_research.
  destruct (check_items "key_points" 3 5 (rc_key_points c)) as [kp|e] eqn:Hkp; [|discriminate].
  apply check_items_ok in Hkp as [-> Hlen].
  intros [= <-]. simpl. auto.
Qed.

Lemma validate_research_rejects c :
  (length (rc_key_points c) < 3 \/ 5 < length (rc_key_points c))%nat ->
  exists msg, validate_research c = Raise (SchemaViolation msg).
Proof.
  intros Hout. unfold validate_research.
  destruct (check_items_rejects "key_points" 3 5 (rc_key_points c) Hout) as [msg ->].
  eauto.
Qed.

(** What [Agent.run] gives back, case by case on the backend's answer. *)
Lemma agent_run_cases {C R} name (backend : nat -> string -> Outcome C)
      (validate : C -> Result R) prompt w :
  let w' := fun ok => log_exchange name prompt ok (advance w) in
  match backend (clock w) prompt with
  | Unreachable msg =>
      agent_run name backend validate prompt w = (Raise (BackendUnavailable msg), w' false)
  | Answer c =>
      match validate c with
      | Ok r => agent_run name backend validate prompt w = (Ok r, w' true)
      | Raise e => agent_run name backend validate prompt w = (Raise e, w' false)
      end
  end.
Proof.
  unfold agent_run. simpl.
  destruct (backend (clock w) prompt) as [c|msg]; [|reflexivity].
  destruct (validate c); reflexivity.
Qed.

Lemma agent_run_ok_inv {C R} name (backend : nat -> string -> Outcome C)
      (validate : C -> Result R) prompt w r w' :
  agent_run name backend validate prompt w = (Ok r, w') ->
  exists c, backend (clock w) prompt = Answer c /\ validate c = Ok r /\
            w' = log_exchange name prompt true (advance w).
Proof.
  pose proof (agent_run_cases name backend validate prompt w) as Hc. simpl in Hc.
  destruct (backend (clock w) prompt) as [c|msg].
  - destruct (validate c) as [r0|e] eqn:Hv; rewrite Hc; intros [= <- <-]; eauto.
  - rewrite Hc. discriminate.
Qed.

(** C7. An accepted [ResearchResult] has between three and five key points,
    at the schema and wherever the research agent returns one; a candidate
    with two or with six key points is rejected as a schema violation: the
    schema raises, the research agent raises instead of returning a result,
    and [research_topic] of main.py returns [None]. *)
Theorem research_key_points_between_3_and_5 ext :
  (forall c r, validate_research c = Ok r -> (3 <= length (key_points r) <= 5)%nat) /\
  (forall prompt w r w',
      research_agent_run ext prompt w = (Ok r, w') ->
      (3 <= length (key_points r) <= 5)%nat) /\
  (forall c,
      length (rc_key_points c) = 2%nat \/ length (rc_key_points c) = 6%nat ->
      exists msg, validate_research c = Raise (SchemaViolation msg)) /\
  (forall prompt w c,
      research_backend ext (clock w) prompt = Answer c ->
      length (rc_key_points c) = 2%nat \/ length (rc_key_points c) = 6%nat ->
      exists msg w', research_agent_run ext prompt w = (Raise (SchemaViolation msg), w')) /\
  (forall topic' w c,
      research_backend ext (clock w) (research_prompt topic') = Answer c ->
      length (rc_key_points c) = 2%nat \/ length (rc_key_points c) = 6%nat ->
      exists w', research_topic ext topic' w = (Ok None, w')).
Proof.
  split; [|split; [|split; [|split]]].
  - intros c r Hv. apply validate_research_ok in Hv as [-> Hlen]. exact Hlen.
  - intros prompt w r w' Hrun.
    apply agent_run_ok_inv in Hrun as (c & _ & Hv & _).
    apply validate_research_ok in Hv as [-> Hlen]. exact Hlen.
  - intros c Hlen. apply validate_research_rejects. lia.
  - intros prompt w c Hback Hlen.
    destruct (validate_research_rejects c) as [msg Hrej]; [lia|].
    pose proof (agent_run_cases "research_agent" (research_backend ext)
                  validate_research prompt w) as Hc.
    simpl in Hc. rewrite Hback, Hrej in Hc.
    unfold research_agent_run. rewrite Hc. eauto.
  - intros topic' w c Hback Hlen.
    destruct (validate_research_rejects c) as [msg Hrej]; [lia|].
    unfold research_topic, try_except, bind, print, write, modify, ret,
      research_agent_run, agent_run.
    simpl. fold (research_prompt topic'). rewrite Hback, Hrej. simpl. eauto.
Qed.

Lemma research_key_points_between_3_and_5_witness :
  (exists r, validate_research Sample.research_ok = Ok r /\
             (3 <= length (key_points r) <= 5)%nat) /\
  (exists msg, validate_research (Sample.research_with 2) = Raise (SchemaViolation msg)) /\
  (exists msg, validate_research (Sample.research_with 6) = Raise (SchemaViolation msg)).
Proof.
  destruct (research_key_points_between_3_and_5 Sample.healthy) as (Hacc & _ & Hrej & _).
  split; [|split].
  - eexists. split; [reflexivity|]. apply (Hacc Sample.research_ok). reflexivity.
  - apply Hrej. left. reflexivity.
  - apply Hrej. right. reflexivity.
Defined.

(** C8, as the specification states it, fails: the schema accepts a
    two-word content announced as one hundred words long. *)
Lemma word_count_not_checked :
  exists r, validate_creative Sample.report = Ok r /\
            count_words (content r) = 2%nat /\
            word_count r = 100 /\
            word_count r <> Z.of_nat (count_words (content r)).
Proof.
  eexists. split; [reflexivity|]. simpl. repeat split. discriminate.
Qed.

(** C8, amended. Whatever the creative agent returns carries the
    [word_count] and the [content] of the backend's candidate, both as they
    came; every candidate is accepted, whatever its [word_count]. *)
Theorem word_count_is_the_backends ext prompt w r w' :
  creative_agent_run ext prompt w = (Ok r, w') ->
  exists c, creative_backend ext (clock w) prompt = Answer c /\
            validate_creative c = Ok r /\
            word_count r = cr_word_count c /\ content r = cr_content c.
Proof.
  intros Hrun. apply agent_run_ok_inv in Hrun as (c & Hback & Hv & _).
  exists c. split; [exact Hback|]. split; [exact Hv|].
  unfold validate_creative in Hv. injection Hv as <-. split; reflexivity.
Qed.

Lemma word_count_is_the_backends_witness :
  exists c, creative_backend Sample.healthy 0 "Write a report" = Answer c /\
            validate_creative c =
              Ok {| content_type := "report"; title := "AI in care"; content := "two words";
                    target_audience := "professional"; tone := "analytical";
                    word_count := 100 |} /\
            100 = cr_word_count c /\ "two words" = cr_content c.
Proof.
  exact (word_count_is_the_backends Sample.healthy "Write a report" Sample.configured
           _ _ eq_refl).
Defined.

(** ** Slices of the histories *)

Lemma last_slice_positive {A} (k : Z) (l : list A) :
  0 < k -> Py.last_slice k l = drop (length l - Z.to_nat k) l.
Proof.
  intros Hk. unfold Py.last_slice, Py.slice_from.
  destruct (Z.ltb_spec (- k) 0); [|lia].
  f_equal. lia.
Qed.

Lemma last_slice_zero {A} (l : list A) : Py.last_slice 0 l = l.
Proof. unfold Py.last_slice, Py.slice_from. simpl. rewrite Z.min_l by lia. reflexivity. Qed.

Lemma last_slice_suffix {A} (k : Z) (pre suf : list A) :
  Z.of_nat (length suf) = k -> 0 < k -> Py.last_slice k (pre ++ suf) = suf.
Proof.
  intros Hlen Hk. rewrite last_slice_positive by exact Hk.
  rewrite length_app.
  replace (length pre + length suf - Z.to_nat k)%nat with (length pre) by lia.
  apply drop_app_length.
Qed.

(** The reporter shows the last five records of any longer history, in the
    order of the history and numbered from one. *)
Lemma get_task_history_last_five deps pre suf :
  task_history deps = pre ++ suf -> length suf = 5%nat ->
  get_task_history deps =
    fold_left render_task (Py.enumerate 1 suf) (task_history_header deps).
Proof.
  intros Hh Hlen. unfold get_task_history.
  destruct (task_history deps) as [|t0 rest] eqn:Ht.
  - destruct pre; destruct suf; discriminate.
  - rewrite Hh, last_slice_suffix by lia. reflexivity.
Qed.

(** With a positive limit [get_recent_context] takes the last
    [min limit (length history)] entries, oldest first. *)
Lemma get_recent_context_positive self limit :
  0 < limit ->
  let history := conversation_history self in
  let recent := drop (length history - Z.to_nat limit) history in
  get_recent_context self limit = Py.join Py.nl (map render_entry recent) /\
  length recent = Nat.min (Z.to_nat limit) (length history).
Proof.
  intros Hlimit history recent. split.
  - unfold get_recent_context. fold history.
    destruct history as [|e rest] eqn:Hh; [reflexivity|].
    rewrite last_slice_positive by exact Hlimit. reflexivity.
  - subst recent. rewrite length_drop. lia.
Qed.

(** C10 at the limit 0. The slice [conversation_history[-0:]] is the whole
    history: [get_recent_context] renders every entry, where the last
    [min 0 (length history)] entries are none; on a history of two entries
    the text is not the empty rendering. *)
Theorem get_recent_context_limit_zero_renders_all :
  (forall self,
      get_recent_context self 0 =
        Py.join Py.nl (map render_entry (conversation_history self))) /\
  get_recent_context Sample.two_entries 0 =
    "[user] user: hello" +:+ Py.nl +:+ "[coordinator] assistant: hi" /\
  get_recent_context Sample.two_entries 0 <>
    Py.join Py.nl (map render_entry (take (Z.to_nat (Z.min 0 2)) (conversation_history Sample.two_entries))).
Proof.
  split; [|split].
  - intros self. unfold get_recent_context.
    destruct (conversation_history self) as [|e rest]; [reflexivity|].
    rewrite last_slice_zero. reflexivity.
  - vm_compute. reflexivity.
  - vm_compute. discriminate.
Qed.

(** ** How the context grows *)

Lemma grows_refl w : grows w w [] [] [].
Proof. unfold grows. rewrite !app_nil_r. repeat split. Qed.

Lemma grows_trans w1 w2 w3 cs1 cs2 ts1 ts2 xs1 xs2 :
  grows w1 w2 cs1 ts1 xs1 -> grows w2 w3 cs2 ts2 xs2 ->
  grows w1 w3 (cs1 ++ cs2) (ts1 ++ ts2) (xs1 ++ xs2).
Proof.
  unfold grows.
  intros (Hc1 & Ht1 & Hx1 & Hs1 & He1 & Hi1 & Ho1 & Hr1)
         (Hc2 & Ht2 & Hx2 & Hs2 & He2 & Hi2 & Ho2 & Hr2).
  rewrite Hc2, Hc1, Ht2, Ht1, Hx2, Hx1, Hs2, Hs1, He2, He1, Hi2, Hi1, Ho2, Ho1, Hr2, Hr1.
  rewrite !app_assoc. repeat split.
Qed.

Lemma system_only_app cs1 cs2 :
  system_only cs1 -> system_only cs2 -> system_only (cs1 ++ cs2).
Proof. unfold system_only. intros H1 H2. apply Forall_app. split; assumption. Qed.

Lemma records_of_app a ts1 ts2 :
  records_of a (ts1 ++ ts2) = (records_of a ts1 + records_of a ts2)%nat.
Proof. unfold records_of. rewrite filter_app, length_app. reflexivity. Qed.

Lemma accepted_of_app a xs1 xs2 :
  accepted_of a (xs1 ++ xs2) = (accepted_of a xs1 + accepted_of a xs2)%nat.
Proof. unfold accepted_of. rewrite filter_app, length_app. reflexivity. Qed.

Lemma tallied_nil : tallied [] [].
Proof. intros a _. reflexivity. Qed.

Lemma tallied_app ts1 ts2 xs1 xs2 :
  tallied ts1 xs1 -> tallied ts2 xs2 -> tallied (ts1 ++ ts2) (xs1 ++ xs2).
Proof.
  intros H1 H2 a Ha. rewrite records_of_app, accepted_of_app, H1, H2 by exact Ha.
  reflexivity.
Qed.

(** A specialist's record against its accepted call. *)
Lemma tallied_accepted s t p :
  agents_used t = [s] -> tallied [t] [exchange s p true].
Proof.
  intros Hs a _. unfold records_of, accepted_of. rewrite !filter_cons, !filter_nil.
  rewrite Hs. simpl.
  destruct (decide (s = a)) as [->|Hne].
  - rewrite !decide_True by auto. reflexivity.
  - rewrite !decide_False by (intros H; apply Hne; (congruence || tauto)). reflexivity.
Qed.

(** A call that gave nothing leaves no record. *)
Lemma tallied_failed s p : tallied [] [exchange s p false].
Proof.
  intros a _. unfold records_of, accepted_of. rewrite filter_cons, !filter_nil. simpl.
  rewrite decide_False by (intros [_ H]; discriminate). reflexivity.
Qed.

(** The coordinator's own calls are not a specialist's. *)
Lemma tallied_coordinator p ok : tallied [] [exchange "coordinator" p ok].
Proof.
  intros a Ha. unfold records_of, accepted_of. rewrite filter_cons, !filter_nil. simpl.
  rewrite decide_False by (intros [H _]; auto). reflexivity.
Qed.

(** The combined record names two agents: it is nobody's single record. *)
Lemma tallied_complex_record topic' ts : tallied [complex_record topic' ts] [].
Proof.
  intros a _. unfold records_of, accepted_of. rewrite filter_cons, !filter_nil. simpl.
  rewrite decide_False by discriminate. reflexivity.
Qed.

(** ** The context methods and the tools, step by step *)

Lemma bind_run {A B} (m : M A) (k : A -> M B) w :
  bind m k w =
    match m w with
    | (Ok a, w1) => k a w1
    | (Raise e, w1) => (Raise e, w1)
    end.
Proof. reflexivity. Qed.

Lemma add_conversation_run ext role text agent_name w :
  exists w',
    add_conversation ext role text agent_name w = (Ok tt, w') /\
    grows w w' [{| entry_role := role; entry_content := text; entry_agent := agent_name;
                   entry_timestamp := isoformat ext (clock w) |}] [] [] /\
    agent_results (context w') = agent_results (context w) /\
    clock w' = S (clock w).
Proof.
  eexists. split; [reflexivity|]. unfold grows. simpl. rewrite !app_nil_r.
  repeat split.
Qed.

Ltac run_tool_body :=
  unfold research_agent_run, code_agent_run, creative_agent_run, agent_run,
    add_conversation, now_isoformat, store_agent_result, new_task_summary,
    add_task_result, bind, modify, ret;
  simpl.

Ltac grows_by_computation :=
  unfold grows; simpl; rewrite ?app_nil_r; repeat split; reflexivity.

Lemma delegate_research_spec ext t w :
  match delegate_research ext t w with
  | (Ok r, w') =>
      exists ts1 ts2,
        grows w w' [system_entry ("Delegating research: " +:+ t) ts1]
              [research_record r ts2]
              [exchange "research_agent" (research_prompt t) true]
  | (Raise e, w') =>
      exists ts1,
        grows w w' [system_entry ("Delegating research: " +:+ t) ts1] []
              [exchange "research_agent" (research_prompt t) false]
  end.
Proof.
  unfold delegate_research. run_tool_body.
  destruct (research_backend ext _ _) as [c|msg]; simpl.
  - destruct (validate_research c) as [r|e]; simpl.
    + do 2 eexists. grows_by_computation.
    + eexists. grows_by_computation.
  - eexists. grows_by_computation.
Qed.

Lemma delegate_code_analysis_spec ext code lang w :
  match delegate_code_analysis ext code lang w with
  | (Ok c, w') =>
      exists ts1 ts2,
        grows w w' [system_entry ("Delegating code analysis for " +:+ lang) ts1]
              [code_record c ts2]
              [exchange "code_agent" (code_prompt code lang) true]
  | (Raise e, w') =>
      exists ts1,
        grows w w' [system_entry ("Delegating code analysis for " +:+ lang) ts1] []
              [exchange "code_agent" (code_prompt code lang) false]
  end.
Proof.
  unfold delegate_code_analysis. run_tool_body.
  destruct (code_backend ext _ _) as [c|msg]; simpl.
  - destruct (validate_code c) as [r|e]; simpl.
    + do 2 eexists. grows_by_computation.
    + eexists. grows_by_computation.
  - eexists. grows_by_computation.
Qed.

Lemma delegate_content_creation_spec ext request ctype audience tn w :
  match delegate_content_creation ext request ctype audience tn w with
  | (Ok c, w') =>
      exists ts1 ts2,
        grows w w' [system_entry ("Delegating content creation: " +:+ ctype) ts1]
              [content_record c ts2]
              [exchange "creative_agent" (content_prompt request ctype audience tn) true]
  | (Raise e, w') =>
      exists ts1,
        grows w w' [system_entry ("Delegating content creation: " +:+ ctype) ts1] []
              [exchange "creative_agent" (content_prompt request ctype audience tn) false]
  end.
Proof.
  unfold delegate_content_creation. run_tool_body.
  destruct (creative_backend ext _ _) as [c|msg]; simpl.
  - do 2 eexists. grows_by_computation.
  - eexists. grows_by_computation.
Qed.

Lemma complex_research_analysis_spec ext t w :
  match complex_research_analysis ext t w with
  | (Ok s, w') =>
      exists r c ts0 ts1 ts2 ts3 ts4 ts5,
        s = complex_response r c /\
        grows w w'
              [system_entry ("Starting complex analysis: " +:+ t) ts0;
               system_entry ("Delegating research: " +:+ t) ts1;
               system_entry ("Delegating content creation: " +:+ "report") ts2]
              [research_record r ts3; content_record c ts4; complex_record t ts5]
              [exchange "research_agent" (research_prompt t) true;
               exchange "creative_agent"
                 (content_prompt (report_request r) "report" "professional" "analytical") true]
  | (Raise e, w') =>
      exists cs ts xs, grows w w' cs ts xs /\ system_only cs /\ tallied ts xs
  end.
Proof.
  unfold complex_research_analysis. rewrite bind_run.
  destruct (add_conversation_run ext "system" ("Starting complex analysis: " +:+ t)
              "coordinator" w) as (w1 & -> & Hg1 & _).
  rewrite bind_run.
  pose proof (delegate_research_spec ext t w1) as Hr.
  destruct (delegate_research ext t w1) as [[r|e] w2].
  - destruct Hr as (ts1 & ts3 & Hg2).
    rewrite bind_run. fold (report_request r).
    pose proof (delegate_content_creation_spec ext (report_request r) "report"
                  "professional" "analytical" w2) as Hc.
    destruct (delegate_content_creation ext (report_request r) "report"
                "professional" "analytical" w2) as [[c|e] w3].
    + destruct Hc as (ts2 & ts4 & Hg3).
      exists r, c, (isoformat ext (clock w)), ts1, ts2, ts3, ts4, (isoformat ext (clock w3)).
      split; [reflexivity|].
      pose proof (grows_trans _ _ _ _ _ _ _ _ _ (grows_trans _ _ _ _ _ _ _ _ _ Hg1 Hg2) Hg3)
        as Hg.
      assert (Hlast : grows w3
                (snd ((let* task_summary :=
                         new_task_summary ext "complex_analysis"
                           ["research_agent"; "creative_agent"] "completed"
                           ("Complex analysis of '" +:+ t
                              +:+ "' with research and report generation") in
                       add_task_result task_summary) w3))
                [] [complex_record t (isoformat ext (clock w3))] [])
        by grows_by_computation.
      exact (grows_trans _ _ _ _ _ _ _ _ _ Hg Hlast).
    + destruct Hc as (ts2 & Hg3).
      do 3 eexists. split; [exact (grows_trans _ _ _ _ _ _ _ _ _
                                     (grows_trans _ _ _ _ _ _ _ _ _ Hg1 Hg2) Hg3)|].
      split.
      * repeat constructor.
      * simpl. change [research_record r ts3] with ([research_record r ts3] ++ []).
        change [exchange "research_agent" (research_prompt t) true;
                exchange "creative_agent"
                  (content_prompt (report_request r) "report" "professional" "analytical") false]
          with ([exchange "research_agent" (research_prompt t) true] ++
                [exchange "creative_agent"
                   (content_prompt (report_request r) "report" "professional" "analytical") false]).
        apply tallied_app; [apply tallied_accepted; reflexivity | apply tallied_failed].
  - destruct Hr as (ts1 & Hg2).
    do 3 eexists. split; [exact (grows_trans _ _ _ _ _ _ _ _ _ Hg1 Hg2)|].
    split; [repeat constructor | apply tallied_failed].
Qed.

Lemma tallied_complex_success r c t ts3 ts4 ts5 p1 p2 :
  tallied [research_record r ts3; content_record c ts4; complex_record t ts5]
          [exchange "research_agent" p1 true; exchange "creative_agent" p2 true].
Proof.
  change (tallied ([research_record r ts3] ++ [content_record c ts4] ++ [complex_record t ts5])
                  ([exchange "research_agent" p1 true] ++
                   [exchange "creative_agent" p2 true] ++ [])).
  apply tallied_app; [apply tallied_accepted; reflexivity|].
  apply tallied_app; [apply tallied_accepted; reflexivity|].
  apply tallied_complex_record.
Qed.

(** Every tool only adds system entries, and one single-agent record for
    each specialist call that gave a result. *)
Lemma run_tool_grows ext call w :
  exists cs ts xs,
    grows w (snd (run_tool ext call w)) cs ts xs /\ system_only cs /\ tallied ts xs.
Proof.
  destruct call as [t | code lang | request ctype audience tn | | t];
    unfold run_tool; rewrite bind_run.
  - pose proof (delegate_research_spec ext t w) as H.
    destruct (delegate_research ext t w) as [[r|e] w'].
    + destruct H as (ts1 & ts2 & Hg). do 3 eexists. split; [exact Hg|].
      split; [repeat constructor | apply tallied_accepted; reflexivity].
    + destruct H as (ts1 & Hg). do 3 eexists. split; [exact Hg|].
      split; [repeat constructor | apply tallied_failed].
  - pose proof (delegate_code_analysis_spec ext code (default "auto-detect" lang) w) as H.
    destruct (delegate_code_analysis ext code (default "auto-detect" lang) w) as [[r|e] w'].
    + destruct H as (ts1 & ts2 & Hg). do 3 eexists. split; [exact Hg|].
      split; [repeat constructor | apply tallied_accepted; reflexivity].
    + destruct H as (ts1 & Hg). do 3 eexists. split; [exact Hg|].
      split; [repeat constructor | apply tallied_failed].
  - pose proof (delegate_content_creation_spec ext request (default "article" ctype)
                  (default "general" audience) (default "professional" tn) w) as H.
    destruct (delegate_content_creation ext request (default "article" ctype)
                (default "general" audience) (default "professional" tn) w) as [[r|e] w'].
    + destruct H as (ts1 & ts2 & Hg). do 3 eexists. split; [exact Hg|].
      split; [repeat constructor | apply tallied_accepted; reflexivity].
    + destruct H as (ts1 & Hg). do 3 eexists. split; [exact Hg|].
      split; [repeat constructor | apply tallied_failed].
  - simpl. exists [], [], []. split; [apply grows_refl|].
    split; [constructor | apply tallied_nil].
  - pose proof (complex_research_analysis_spec ext t w) as H.
    destruct (complex_research_analysis ext t w) as [[s|e] w'].
    + destruct H as (r & c & ts0 & ts1 & ts2 & ts3 & ts4 & ts5 & _ & Hg).
      do 3 eexists. split; [exact Hg|].
      split; [repeat constructor | apply tallied_complex_success].
    + exact H.
Qed.

(** The coordinator's whole conversation does the same. *)
Lemma run_coordinator_grows ext user_input c :
  forall w,
  exists cs ts xs,
    grows w (snd (run_coordinator ext user_input c w)) cs ts xs /\
    system_only cs /\ tallied ts xs.
Proof.
  assert (Hlog : forall ok w,
             grows w (log_exchange "coordinator" user_input ok (advance w))
                   [] [] [exchange "coordinator" user_input ok])
    by (intros; grows_by_computation).
  induction c as [text | e | call next IH]; intros w.
  - exists [], [], [exchange "coordinator" user_input true].
    split; [apply Hlog|]. split; [constructor | apply tallied_coordinator].
  - exists [], [], [exchange "coordinator" user_input false].
    split; [apply Hlog|]. split; [constructor | apply tallied_coordinator].
  - simpl. rewrite bind_run. unfold modify at 1. rewrite bind_run.
    set (w1 := log_exchange "coordinator" user_input true (advance w)).
    destruct (run_tool_grows ext call w1) as (cs1 & ts1 & xs1 & Hg1 & Hs1 & Ht1).
    destruct (run_tool ext call w1) as [[r|e] w2]; simpl in Hg1.
    + destruct (IH r w2) as (cs2 & ts2 & xs2 & Hg2 & Hs2 & Ht2).
      exists ([] ++ cs1 ++ cs2), ([] ++ ts1 ++ ts2),
        ([exchange "coordinator" user_input true] ++ xs1 ++ xs2).
      split; [exact (grows_trans _ _ _ _ _ _ _ _ _ (Hlog true w)
                       (grows_trans _ _ _ _ _ _ _ _ _ Hg1 Hg2))|].
      split; [simpl; apply system_only_app; assumption|].
      apply (tallied_app [] _ [_] _); [apply tallied_coordinator|].
      apply tallied_app; assumption.
    + exists ([] ++ cs1), ([] ++ ts1), ([exchange "coordinator" user_input true] ++ xs1).
      split; [exact (grows_trans _ _ _ _ _ _ _ _ _ (Hlog true w) Hg1)|].
      split; [exact Hs1|].
      apply (tallied_app [] _ [_] _); [apply tallied_coordinator | exact Ht1].
Qed.

(** ** Delegations *)

Lemma grows_tasks w w' cs ts xs :
  grows w w' cs ts xs -> task_history (context w') = task_history (context w) ++ ts.
Proof. intros (_ & Ht & _). exact Ht. Qed.

Lemma grows_exchanges w w' cs ts xs :
  grows w w' cs ts xs -> exchanges w' = exchanges w ++ xs.
Proof. intros (_ & _ & Hx & _). exact Hx. Qed.

Lemma grows_conversation w w' cs ts xs :
  grows w w' cs ts xs ->
  conversation_history (context w') = conversation_history (context w) ++ cs.
Proof. intros (Hc & _). exact Hc. Qed.

(** C5. A research, code analysis or content creation delegation that
    succeeds appends exactly one task record: its kind is that of the
    delegation, it names the one specialist used, and it is completed. *)
Theorem single_delegation_appends_one_record ext w w' :
  (forall t r,
      delegate_research ext t w = (Ok r, w') ->
      appended_single w w' "research" "research_agent") /\
  (forall code lang c,
      delegate_code_analysis ext code lang w = (Ok c, w') ->
      appended_single w w' "code_analysis" "code_agent") /\
  (forall request ctype audience tn c,
      delegate_content_creation ext request ctype audience tn w = (Ok c, w') ->
      appended_single w w' "content_creation" "creative_agent").
Proof.
  split; [|split].
  - intros t r Hrun. pose proof (delegate_research_spec ext t w) as H.
    rewrite Hrun in H. destruct H as (ts1 & ts2 & Hg).
    exists (research_record r ts2). split; [exact (grows_tasks _ _ _ _ _ Hg)|].
    repeat split.
  - intros code lang c Hrun. pose proof (delegate_code_analysis_spec ext code lang w) as H.
    rewrite Hrun in H. destruct H as (ts1 & ts2 & Hg).
    exists (code_record c ts2). split; [exact (grows_tasks _ _ _ _ _ Hg)|].
    repeat split.
  - intros request ctype audience tn c Hrun.
    pose proof (delegate_content_creation_spec ext request ctype audience tn w) as H.
    rewrite Hrun in H. destruct H as (ts1 & ts2 & Hg).
    exists (content_record c ts2). split; [exact (grows_tasks _ _ _ _ _ Hg)|].
    repeat split.
Qed.

Lemma single_delegation_appends_one_record_witness :
  appended_single Sample.configured
    (snd (delegate_research Sample.healthy "AI impact on healthcare" Sample.configured))
    "research" "research_agent" /\
  appended_single Sample.configured
    (snd (delegate_code_analysis Sample.healthy "def f(): pass" "Python" Sample.configured))
    "code_analysis" "code_agent" /\
  appended_single Sample.configured
    (snd (delegate_content_creation Sample.healthy "project updates" "email" "general"
            "professional" Sample.configured))
    "content_creation" "creative_agent".
Proof.
  split; [|split].
  - destruct (delegate_research Sample.healthy "AI impact on healthcare" Sample.configured)
      as [[r|e] w'] eqn:Hrun.
    + exact (proj1 (single_delegation_appends_one_record Sample.healthy
                      Sample.configured w') _ r Hrun).
    + vm_compute in Hrun. discriminate Hrun.
  - destruct (delegate_code_analysis Sample.healthy "def f(): pass" "Python"
                Sample.configured) as [[c|e] w'] eqn:Hrun.
    + exact (proj1 (proj2 (single_delegation_appends_one_record Sample.healthy
                             Sample.configured w')) _ _ c Hrun).
    + vm_compute in Hrun. discriminate Hrun.
  - destruct (delegate_content_creation Sample.healthy "project updates" "email" "general"
                "professional" Sample.configured) as [[c|e] w'] eqn:Hrun.
    + exact (proj2 (proj2 (single_delegation_appends_one_record Sample.healthy
                             Sample.configured w')) _ _ _ _ c Hrun).
    + vm_compute in Hrun. discriminate Hrun.
Defined.


(** C1. A complex analysis that succeeds appends exactly three task
    records, in this order: the research record, the content creation
    record, the combined record; the combined record names the research
    agent and then the creative agent, which is the order in which the two
    were called. *)
Theorem complex_analysis_appends_three_records ext t w s w' :
  complex_research_analysis ext t w = (Ok s, w') ->
  exists t1 t2 t3 p1 p2,
    task_history (context w') = task_history (context w) ++ [t1; t2; t3] /\
    (task_type t1 = "research" /\ agents_used t1 = ["research_agent"]) /\
    (task_type t2 = "content_creation" /\ agents_used t2 = ["creative_agent"]) /\
    (task_type t3 = "complex_analysis" /\
     agents_used t3 = ["research_agent"; "creative_agent"]) /\
    Forall (fun t => status t = "completed") [t1; t2; t3] /\
    exchanges w' =
      exchanges w ++ [exchange "research_agent" p1 true; exchange "creative_agent" p2 true].
Proof.
  intros Hrun. pose proof (complex_research_analysis_spec ext t w) as H.
  rewrite Hrun in H.
  destruct H as (r & c & ts0 & ts1 & ts2 & ts3 & ts4 & ts5 & _ & Hg).
  exists (research_record r ts3), (content_record c ts4), (complex_record t ts5).
  do 2 eexists.
  split; [exact (grows_tasks _ _ _ _ _ Hg)|].
  split; [split; reflexivity|]. split; [split; reflexivity|]. split; [split; reflexivity|].
  split; [repeat constructor|].
  exact (grows_exchanges _ _ _ _ _ Hg).
Qed.

Lemma complex_analysis_appends_three_records_witness :
  let w' := snd (complex_research_analysis Sample.healthy "AI impact on healthcare"
                   Sample.configured) in
  exists t1 t2 t3 p1 p2,
    task_history (context w') = task_history (context Sample.configured) ++ [t1; t2; t3] /\
    (task_type t1 = "research" /\ agents_used t1 = ["research_agent"]) /\
    (task_type t2 = "content_creation" /\ agents_used t2 = ["creative_agent"]) /\
    (task_type t3 = "complex_analysis" /\
     agents_used t3 = ["research_agent"; "creative_agent"]) /\
    Forall (fun t => status t = "completed") [t1; t2; t3] /\
    exchanges w' =
      exchanges Sample.configured ++
        [exchange "research_agent" p1 true; exchange "creative_agent" p2 true].
Proof.
  destruct (complex_research_analysis Sample.healthy "AI impact on healthcare"
              Sample.configured) as [[s|e] w'] eqn:Hrun.
  - exact (complex_analysis_appends_three_records Sample.healthy _ Sample.configured s w' Hrun).
  - vm_compute in Hrun. discriminate Hrun.
Defined.

(** ** The orchestrator *)

(** [process_request], in the two ways it can go. *)
Lemma process_request_run ext user_input w :
  let w1 := request_received ext user_input w in
  grows w w1 [user_entry user_input (isoformat ext (clock w))] [] [] /\
  match coordinator_agent_run ext user_input w1 with
  | (Ok out, w2) =>
      exists w',
        process_request ext user_input w = (Ok out, w') /\
        grows w2 w' [assistant_entry out (isoformat ext (clock w2))] [] [] /\
        agent_results (context w') = agent_results (context w2)
  | (Raise e, w2) =>
      exists w',
        process_request ext user_input w = (Ok (error_prefix +:+ exn_str e), w') /\
        grows w2 w' [error_entry (error_prefix +:+ exn_str e) (isoformat ext (clock w2))] [] [] /\
        agent_results (context w') = agent_results (context w2)
  end.
Proof.
  intros w1.
  destruct (add_conversation_run ext "user" user_input "user" w) as (w1' & Hadd & Hg & _).
  assert (Hw1 : w1 = w1') by (unfold w1, request_received; rewrite Hadd; reflexivity).
  split; [rewrite Hw1; exact Hg|].
  unfold process_request, try_except. rewrite bind_run, Hadd, bind_run, <- Hw1.
  destruct (coordinator_agent_run ext user_input w1) as [[out|e] w2].
  - rewrite bind_run.
    destruct (add_conversation_run ext "assistant" out "coordinator" w2)
      as (w' & -> & Hg' & Hres & _).
    exists w'. split; [reflexivity|]. split; [exact Hg' | exact Hres].
  - destruct (add_conversation_run ext "system" (error_prefix +:+ exn_str e) "error" w2)
      as (w' & Hadd' & Hg' & Hres & _).
    exists w'. split; [|split; [exact Hg' | exact Hres]].
    rewrite bind_run, Hadd'. reflexivity.
Qed.

Lemma coordinator_agent_run_grows ext user_input w :
  exists cs ts xs,
    grows w (snd (coordinator_agent_run ext user_input w)) cs ts xs /\
    system_only cs /\ tallied ts xs.
Proof. unfold coordinator_agent_run. apply run_coordinator_grows. Qed.

Lemma entries_with_role_system_only r cs :
  system_only cs -> r <> "system" -> entries_with_role r cs = [].
Proof.
  unfold system_only, entries_with_role. intros Hall Hr.
  induction Hall as [|e cs He _ IH]; [reflexivity|].
  rewrite filter_cons, decide_False by congruence. exact IH.
Qed.

(** In that run one task record, the research one, outlives the failure. *)
Example writer_down_keeps_research_record :
  map task_type
      (task_history (context (snd (process_request Sample.writer_down
         "Do a complex analysis on AI impact on healthcare" Sample.configured))))
    = ["research"].
Proof. vm_compute. reflexivity. Qed.

(** C3, as the specification states it, fails.  The research backend is
    down: the call of [process_request] ends with the error entry, not with
    an assistant entry, and the research agent was called without a task
    record being written. *)
Lemma failed_delegation_breaks_the_shape :
  ~ one_user_one_assistant_one_record_per_call Sample.research_down
      "Research quantum computing trends" Sample.configured.
Proof.
  intros (cs & ts & xs & Hc & Ht & Hx & _ & _ & _ & Hassistant & _).
  vm_compute in Hc. subst cs. vm_compute in Hassistant. discriminate Hassistant.
Qed.

Example failed_delegation_run :
  let w' := snd (process_request Sample.research_down
                   "Research quantum computing trends" Sample.configured) in
  map entry_role (conversation_history (context w')) = ["user"; "system"; "system"] /\
  task_history (context w') = [] /\
  map ex_agent (exchanges w') = ["coordinator"; "research_agent"].
Proof. vm_compute. repeat split. Qed.

(** ** Start-up *)

(** C9. Without a value for [GEMINI_API_KEY] (none, or an empty one) the
    script ends at its imports with the [ValueError] of [get_gemini_model],
    in the world it started in: no model was called, nothing about a session
    was printed, the running flag was not set.  [main] on its own, in such
    an environment, prints its diagnostic and returns, again without a model
    call and without entering the session. *)
Theorem missing_key_stops_at_startup ext fuel w :
  env_truthy (environ w !! "GEMINI_API_KEY") = false ->
  let failure := ValueError "Please set GEMINI_API_KEY in your .env file" in
  get_gemini_model w = (Raise failure, w) /\
  multi_agent_script ext fuel w = (Raise failure, w) /\
  exchanges (snd (multi_agent_script ext fuel w)) = exchanges w /\
  is_running (snd (multi_agent_script ext fuel w)) = is_running w /\
  exists w',
    main ext fuel w = (Ok tt, w') /\
    exchanges w' = exchanges w /\
    is_running w' = is_running w /\
    context w' = context w /\
    stdout w' =
      stdout w ++
        [ "🚀 Initializing Multi-Agent System..." +:+ Py.nl;
          "❌ GEMINI_API_KEY not found!" +:+ Py.nl;
          "Please create a .env file with: GEMINI_API_KEY=your_api_key_here" +:+ Py.nl ].
Proof.
  intros Hkey failure.
  assert (Hmodel : get_gemini_model w = (Raise failure, w)).
  { unfold get_gemini_model, bind, getenv, gets, raise.
    destruct (environ w !! "GEMINI_API_KEY") as [[|a s]|]; try reflexivity.
    discriminate Hkey. }
  assert (Hscript : multi_agent_script ext fuel w = (Raise failure, w)).
  { unfold multi_agent_script, import_agents. rewrite !bind_run, Hmodel. reflexivity. }
  split; [exact Hmodel|]. split; [exact Hscript|].
  rewrite Hscript. split; [reflexivity|]. split; [reflexivity|].
  unfold main, bind, print, write, modify, getenv, gets. simpl.
  rewrite Hkey. simpl.
  eexists. split; [reflexivity|]. simpl.
  repeat split. rewrite <- !app_assoc. reflexivity.
Qed.

Lemma missing_key_stops_at_startup_witness :
  multi_agent_script Sample.healthy 10 Sample.unconfigured =
    (Raise (ValueError "Please set GEMINI_API_KEY in your .env file"), Sample.unconfigured) /\
  exchanges (snd (multi_agent_script Sample.healthy 10 Sample.unconfigured)) = [].
Proof.
  destruct (missing_key_stops_at_startup Sample.healthy 10 Sample.unconfigured eq_refl)
    as (_ & Hscript & Hcalls & _).
  split; [exact Hscript | exact Hcalls].
Defined.

(** With the key set, the same script does call the models and does enter
    the session. *)
Example configured_script_calls_the_models :
  let w' := snd (multi_agent_script Sample.healthy 10 Sample.configured) in
  fst (multi_agent_script Sample.healthy 10 Sample.configured) = Ok tt /\
  map ex_agent (exchanges w') =
    ["coordinator"; "research_agent"; "creative_agent"; "coordinator"] /\
  is_running w' = true.
Proof. vm_compute. repeat split. Qed.

(** ** Further properties: schemas and delegations *)

Lemma check_range_ok field lo hi z z' :
  check_range field lo hi z = Ok z' -> z' = z /\ lo <= z <= hi.
Proof.
  unfold check_range.
  destruct (Z.ltb_spec z lo); [discriminate|].
  destruct (Z.ltb_spec hi z); [discriminate|].
  intros [= <-]. split; [reflexivity | lia].
Qed.

Lemma check_range_rejects field lo hi z :
  z < lo \/ hi < z -> exists msg, check_range field lo hi z = Raise (SchemaViolation msg).
Proof.
  unfold check_range. intros Hout.
  destruct (Z.ltb_spec z lo); [eauto|].
  destruct (Z.ltb_spec hi z); [eauto|].
  lia.
Qed.

Lemma validate_code_ok c r :
  validate_code c = Ok r ->
  complexity_score r = cc_complexity_score c /\ 1 <= cc_complexity_score c <= 10.
Proof.
  unfold validate_code.
  destruct (check_range "complexity_score" 1 10 (cc_complexity_score c)) as [z|e] eqn:Hz;
    [|discriminate].
  apply check_range_ok in Hz as [-> Hr]. intros [= <-]. simpl. auto.
Qed.

Lemma validate_code_rejects c :
  cc_complexity_score c < 1 \/ 10 < cc_complexity_score c ->
  exists msg, validate_code c = Raise (SchemaViolation msg).
Proof.
  intros Hout. unfold validate_code.
  destruct (check_range_rejects "complexity_score" 1 10 (cc_complexity_score c) Hout)
    as [msg ->].
  eauto.
Qed.

(** X1. An accepted [CodeAnalysis] has a complexity score between 1 and 10,
    at the schema and wherever the code agent returns one.  A candidate with
    a score below 1 or above 10 is rejected: the schema raises, and
    [delegate_code_analysis] raises a schema violation having written no
    task record and stored no result. *)
Theorem complexity_score_between_1_and_10 ext :
  (forall c r, validate_code c = Ok r -> 1 <= complexity_score r <= 10) /\
  (forall prompt w r w',
      code_agent_run ext prompt w = (Ok r, w') -> 1 <= complexity_score r <= 10) /\
  (forall c,
      cc_complexity_score c < 1 \/ 10 < cc_complexity_score c ->
      exists msg, validate_code c = Raise (SchemaViolation msg)) /\
  (forall code lang w c,
      code_backend ext (S (clock w)) (code_prompt code lang) = Answer c ->
      cc_complexity_score c < 1 \/ 10 < cc_complexity_score c ->
      exists msg w',
        delegate_code_analysis ext code lang w = (Raise (SchemaViolation msg), w') /\
        task_history (context w') = task_history (context w) /\
        agent_results (context w') = agent_results (context w)).
Proof.
  split; [|split; [|split]].
  - intros c r Hv. apply validate_code_ok in Hv as [-> Hr]. exact Hr.
  - intros prompt w r w' Hrun.
    apply agent_run_ok_inv in Hrun as (c & _ & Hv & _).
    apply validate_code_ok in Hv as [-> Hr]. exact Hr.
  - intros c Hout. apply validate_code_rejects. exact Hout.
  - intros code lang w c Hback Hout.
    destruct (validate_code_rejects c Hout) as [msg Hrej].
    unfold delegate_code_analysis. run_tool_body.
    fold (code_prompt code lang). rewrite Hback, Hrej. simpl.
    do 2 eexists. split; [reflexivity|]. simpl. split; reflexivity.
Qed.

Lemma complexity_score_between_1_and_10_witness :
  (exists r, validate_code Sample.code_ok = Ok r /\ 1 <= complexity_score r <= 10) /\
  (exists msg, validate_code (Sample2.code_with 0) = Raise (SchemaViolation msg)) /\
  (exists msg, validate_code (Sample2.code_with 11) = Raise (SchemaViolation msg)).
Proof.
  destruct (complexity_score_between_1_and_10 Sample.healthy) as (Hacc & _ & Hrej & _).
  split; [|split].
  - eexists. split; [reflexivity|]. apply (Hacc Sample.code_ok). reflexivity.
  - apply Hrej. left. reflexivity.
  - apply Hrej. right. reflexivity.
Defined.

(** What each delegation does to the stored results. *)
Lemma delegate_research_results ext t w :
  match delegate_research ext t w with
  | (Ok r, w') =>
      agent_results (context w') =
        <["research_agent" := ResearchOutput r]> (agent_results (context w))
  | (Raise e, w') => agent_results (context w') = agent_results (context w)
  end.
Proof.
  unfold delegate_research. run_tool_body.
  destruct (research_backend ext _ _) as [c|msg]; simpl; [|reflexivity].
  destruct (validate_research c) as [r|e]; simpl; reflexivity.
Qed.

Lemma delegate_code_analysis_results ext code lang w :
  match delegate_code_analysis ext code lang w with
  | (Ok c, w') =>
      agent_results (context w') = <["code_agent" := CodeOutput c]> (agent_results (context w))
  | (Raise e, w') => agent_results (context w') = agent_results (context w)
  end.
Proof.
  unfold delegate_code_analysis. run_tool_body.
  destruct (code_backend ext _ _) as [c|msg]; simpl; [|reflexivity].
  destruct (validate_code c) as [r|e]; simpl; reflexivity.
Qed.

Lemma delegate_content_creation_results ext request ctype audience tn w :
  match delegate_content_creation ext request ctype audience tn w with
  | (Ok c, w') =>
      agent_results (context w') =
        <["creative_agent" := CreativeOutput c]> (agent_results (context w))
  | (Raise e, w') => agent_results (context w') = agent_results (context w)
  end.
Proof.
  unfold delegate_content_creation. run_tool_body.
  destruct (creative_backend ext _ _) as [c|msg]; simpl; reflexivity.
Qed.

(** X2. A delegation that succeeds stores the result it returns under the
    name of its specialist, replacing what was stored there, and leaves the
    results stored under every other name as they were. *)
Theorem delegation_stores_its_result ext w w' :
  (forall t r,
      delegate_research ext t w = (Ok r, w') ->
      agent_results (context w') !! "research_agent" = Some (ResearchOutput r) /\
      forall k, k <> "research_agent" ->
                agent_results (context w') !! k = agent_results (context w) !! k) /\
  (forall code lang c,
      delegate_code_analysis ext code lang w = (Ok c, w') ->
      agent_results (context w') !! "code_agent" = Some (CodeOutput c) /\
      forall k, k <> "code_agent" ->
                agent_results (context w') !! k = agent_results (context w) !! k) /\
  (forall request ctype audience tn c,
      delegate_content_creation ext request ctype audience tn w = (Ok c, w') ->
      agent_results (context w') !! "creative_agent" = Some (CreativeOutput c) /\
      forall k, k <> "creative_agent" ->
                agent_results (context w') !! k = agent_results (context w) !! k).
Proof.
  split; [|split].
  - intros t r Hrun. pose proof (delegate_research_results ext t w) as H.
    rewrite Hrun in H. rewrite H. split; [apply lookup_insert_eq|].
    intros k Hk. apply lookup_insert_ne. congruence.
  - intros code lang c Hrun. pose proof (delegate_code_analysis_results ext code lang w) as H.
    rewrite Hrun in H. rewrite H. split; [apply lookup_insert_eq|].
    intros k Hk. apply lookup_insert_ne. congruence.
  - intros request ctype audience tn c Hrun.
    pose proof (delegate_content_creation_results ext request ctype audience tn w) as H.
    rewrite Hrun in H. rewrite H. split; [apply lookup_insert_eq|].
    intros k Hk. apply lookup_insert_ne. congruence.
Qed.

Lemma delegation_stores_its_result_witness :
  let w := snd (delegate_research Sample.healthy "first topic" Sample.configured) in
  let w' := snd (delegate_research Sample.healthy "second topic" w) in
  (exists r, agent_results (context w') !! "research_agent" = Some (ResearchOutput r)) /\
  agent_results (context w') !! "code_agent" = agent_results (context w) !! "code_agent".
Proof.
  intros w w'. subst w'.
  destruct (delegate_research Sample.healthy "second topic" w) as [[r|e] w'] eqn:Hrun.
  - destruct (proj1 (delegation_stores_its_result Sample.healthy w w') _ r Hrun)
      as [Hstored Hothers].
    split; [exists r; exact Hstored | apply Hothers; discriminate].
  - vm_compute in Hrun. discriminate Hrun.
Defined.

(** X3. A delegation that fails has written its announcement to the
    conversation history and has called its specialist once, in vain;
    it has written no task record and stored no result. *)
Theorem failed_delegation_writes_no_record ext w w' e :
  (forall t,
      delegate_research ext t w = (Raise e, w') ->
      task_history (context w') = task_history (context w) /\
      agent_results (context w') = agent_results (context w) /\
      exchanges w' = exchanges w ++ [exchange "research_agent" (research_prompt t) false] /\
      exists ts, conversation_history (context w') =
                   conversation_history (context w) ++
                     [system_entry ("Delegating research: " +:+ t) ts]) /\
  (forall code lang,
      delegate_code_analysis ext code lang w = (Raise e, w') ->
      task_history (context w') = task_history (context w) /\
      agent_results (context w') = agent_results (context w) /\
      exchanges w' = exchanges w ++ [exchange "code_agent" (code_prompt code lang) false] /\
      exists ts, conversation_history (context w') =
                   conversation_history (context w) ++
                     [system_entry ("Delegating code analysis for " +:+ lang) ts]) /\
  (forall request ctype audience tn,
      delegate_content_creation ext request ctype audience tn w = (Raise e, w') ->
      task_history (context w') = task_history (context w) /\
      agent_results (context w') = agent_results (context w) /\
      exchanges w' =
        exchanges w ++
          [exchange "creative_agent" (content_prompt request ctype audience tn) false] /\
      exists ts, conversation_history (context w') =
                   conversation_history (context w) ++
                     [system_entry ("Delegating content creation: " +:+ ctype) ts]).
Proof.
  split; [|split].
  - intros t Hrun.
    pose proof (delegate_research_spec ext t w) as Hs.
    pose proof (delegate_research_results ext t w) as Hr.
    rewrite Hrun in Hs, Hr. destruct Hs as (ts & Hg).
    split; [rewrite (grows_tasks _ _ _ _ _ Hg); apply app_nil_r|].
    split; [exact Hr|]. split; [exact (grows_exchanges _ _ _ _ _ Hg)|].
    exists ts. exact (grows_conversation _ _ _ _ _ Hg).
  - intros code lang Hrun.
    pose proof (delegate_code_analysis_spec ext code lang w) as Hs.
    pose proof (delegate_code_analysis_results ext code lang w) as Hr.
    rewrite Hrun in Hs, Hr. destruct Hs as (ts & Hg).
    split; [rewrite (grows_tasks _ _ _ _ _ Hg); apply app_nil_r|].
    split; [exact Hr|]. split; [exact (grows_exchanges _ _ _ _ _ Hg)|].
    exists ts. exact (grows_conversation _ _ _ _ _ Hg).
  - intros request ctype audience tn Hrun.
    pose proof (delegate_content_creation_spec ext request ctype audience tn w) as Hs.
    pose proof (delegate_content_creation_results ext request ctype audience tn w) as Hr.
    rewrite Hrun in Hs, Hr. destruct Hs as (ts & Hg).
    split; [rewrite (grows_tasks _ _ _ _ _ Hg); apply app_nil_r|].
    split; [exact Hr|]. split; [exact (grows_exchanges _ _ _ _ _ Hg)|].
    exists ts. exact (grows_conversation _ _ _ _ _ Hg).
Qed.

Lemma failed_delegation_writes_no_record_witness :
  let w' := snd (delegate_research Sample.research_down "quantum computing trends"
                   Sample.configured) in
  task_history (context w') = task_history (context Sample.configured) /\
  agent_results (context w') = agent_results (context Sample.configured) /\
  exchanges w' =
    exchanges Sample.configured ++
      [exchange "research_agent" (research_prompt "quantum computing trends") false] /\
  exists ts, conversation_history (context w') =
               conversation_history (context Sample.configured) ++
                 [system_entry ("Delegating research: " +:+ "quantum computing trends") ts].
Proof.
  destruct (delegate_research Sample.research_down "quantum computing trends"
              Sample.configured) as [[r|e] w'] eqn:Hrun.
  - vm_compute in Hrun. discriminate Hrun.
  - exact (proj1 (failed_delegation_writes_no_record Sample.research_down
                    Sample.configured w' e) _ Hrun).
Defined.

(** The complex analysis, case by case: the model calls made, the records
    written and the results stored. *)
Lemma complex_research_analysis_cases ext t w :
  let report_prompt r :=
    content_prompt (report_request r) "report" "professional" "analytical" in
  match complex_research_analysis ext t w with
  | (Ok s, w') =>
      exists r c,
        s = complex_response r c /\
        exchanges w' =
          exchanges w ++ [exchange "research_agent" (research_prompt t) true;
                          exchange "creative_agent" (report_prompt r) true] /\
        agent_results (context w') =
          <["creative_agent" := CreativeOutput c]>
            (<["research_agent" := ResearchOutput r]> (agent_results (context w)))
  | (Raise e, w') =>
      (exchanges w' = exchanges w ++ [exchange "research_agent" (research_prompt t) false] /\
       task_history (context w') = task_history (context w) /\
       agent_results (context w') = agent_results (context w)) \/
      (exists r ts,
          exchanges w' =
            exchanges w ++ [exchange "research_agent" (research_prompt t) true;
                            exchange "creative_agent" (report_prompt r) false] /\
          task_history (context w') = task_history (context w) ++ [research_record r ts] /\
          agent_results (context w') =
            <["research_agent" := ResearchOutput r]> (agent_results (context w)))
  end.
Proof.
  intros report_prompt.
  unfold complex_research_analysis. rewrite bind_run.
  destruct (add_conversation_run ext "system" ("Starting complex analysis: " +:+ t)
              "coordinator" w) as (w1 & -> & Hg1 & Hres1 & _).
  rewrite bind_run.
  pose proof (delegate_research_spec ext t w1) as Hr.
  pose proof (delegate_research_results ext t w1) as Hrr.
  destruct (delegate_research ext t w1) as [[r|e] w2].
  - destruct Hr as (ts1 & ts3 & Hg2).
    rewrite bind_run. fold (report_request r).
    pose proof (delegate_content_creation_spec ext (report_request r) "report"
                  "professional" "analytical" w2) as Hc.
    pose proof (delegate_content_creation_results ext (report_request r) "report"
                  "professional" "analytical" w2) as Hcr.
    pose proof (grows_trans _ _ _ _ _ _ _ _ _ Hg1 Hg2) as Hg12.
    destruct (delegate_content_creation ext (report_request r) "report"
                "professional" "analytical" w2) as [[c|e] w3].
    + destruct Hc as (ts2 & ts4 & Hg3).
      pose proof (grows_trans _ _ _ _ _ _ _ _ _ Hg12 Hg3) as Hg.
      exists r, c. split; [reflexivity|]. simpl.
      split; [exact (grows_exchanges _ _ _ _ _ Hg)|].
      rewrite Hcr, Hrr, Hres1. reflexivity.
    + destruct Hc as (ts2 & Hg3).
      pose proof (grows_trans _ _ _ _ _ _ _ _ _ Hg12 Hg3) as Hg.
      right. exists r, ts3.
      split; [exact (grows_exchanges _ _ _ _ _ Hg)|].
      split; [exact (grows_tasks _ _ _ _ _ Hg)|].
      rewrite Hcr, Hrr, Hres1. reflexivity.
  - destruct Hr as (ts1 & Hg2).
    pose proof (grows_trans _ _ _ _ _ _ _ _ _ Hg1 Hg2) as Hg.
    left. split; [exact (grows_exchanges _ _ _ _ _ Hg)|].
    split; [rewrite (grows_tasks _ _ _ _ _ Hg); apply app_nil_r|].
    rewrite Hrr, Hres1. reflexivity.
Qed.

(** X4. A complex analysis fails in one of two ways.  Either the research
    failed: then the report writer was never called, and no record was
    written nor result stored.  Or the research succeeded and the report
    writer failed: then the research record and the stored research result
    stay, and they are all that was written; in particular there is no
    combined record. *)
Theorem complex_analysis_failure_modes ext t w e w' :
  complex_research_analysis ext t w = (Raise e, w') ->
  (exchanges w' = exchanges w ++ [exchange "research_agent" (research_prompt t) false] /\
   task_history (context w') = task_history (context w) /\
   agent_results (context w') = agent_results (context w)) \/
  (exists r ts,
      exchanges w' =
        exchanges w ++
          [exchange "research_agent" (research_prompt t) true;
           exchange "creative_agent"
             (content_prompt (report_request r) "report" "professional" "analytical") false] /\
      task_history (context w') = task_history (context w) ++ [research_record r ts] /\
      agent_results (context w') =
        <["research_agent" := ResearchOutput r]> (agent_results (context w))).
Proof.
  intros Hrun. pose proof (complex_research_analysis_cases ext t w) as H.
  simpl in H. rewrite Hrun in H. exact H.
Qed.

Lemma complex_analysis_failure_modes_witness :
  let w := Sample.configured in
  let w' := snd (complex_research_analysis Sample.writer_down "AI impact on healthcare" w) in
  (exchanges w' =
     exchanges w ++
       [exchange "research_agent" (research_prompt "AI impact on healthcare") false] /\
   task_history (context w') = task_history (context w) /\
   agent_results (context w') = agent_results (context w)) \/
  (exists r ts,
      exchanges w' =
        exchanges w ++
          [exchange "research_agent" (research_prompt "AI impact on healthcare") true;
           exchange "creative_agent"
             (content_prompt (report_request r) "report" "professional" "analytical") false] /\
      task_history (context w') = task_history (context w) ++ [research_record r ts] /\
      agent_results (context w') =
        <["research_agent" := ResearchOutput r]> (agent_results (context w))).
Proof.
  intros w.
  destruct (complex_research_analysis Sample.writer_down "AI impact on healthcare" w)
    as [[s|e] w'] eqn:Hrun.
  - vm_compute in Hrun. discriminate Hrun.
  - exact (complex_analysis_failure_modes Sample.writer_down _ w e w' Hrun).
Defined.

(** X5. The text a complex analysis returns is rendered from the very
    results it stored: the research result kept under [research_agent] and
    the report kept under [creative_agent].  The report writer was asked
    for a report built from the summary and the key points of that research
    result, and the text begins with the research section. *)
Theorem complex_analysis_returns_what_it_stored ext t w s w' :
  complex_research_analysis ext t w = (Ok s, w') ->
  exists r c,
    agent_results (context w') !! "research_agent" = Some (ResearchOutput r) /\
    agent_results (context w') !! "creative_agent" = Some (CreativeOutput c) /\
    s = "🔍 RESEARCH COMPLETED" +:+ Py.nl +:+ format_research_result r
          +:+ Py.nl +:+ Py.nl +:+ "📄 ANALYSIS REPORT" +:+ Py.nl
          +:+ format_creative_result c /\
    Py.startswith "🔍 RESEARCH COMPLETED" s = true /\
    exchanges w' =
      exchanges w ++
        [exchange "research_agent" ("Research this topic: " +:+ t) true;
         exchange "creative_agent"
           ("Create report content about: "
              +:+ ("Create a comprehensive report based on this research: " +:+ summary r
                     +:+ ". Include the key points: " +:+ Py.join ", " (key_points r))
              +:+ ". Target audience: professional. Tone: analytical") true].
Proof.
  intros Hrun. pose proof (complex_research_analysis_cases ext t w) as H.
  simpl in H. rewrite Hrun in H. destruct H as (r & c & -> & Hx & Hres).
  exists r, c. rewrite Hres.
  split; [rewrite lookup_insert_ne by discriminate; apply lookup_insert_eq|].
  split; [apply lookup_insert_eq|].
  split; [reflexivity|].
  split; [apply startswith_append|].
  exact Hx.
Qed.

Lemma complex_analysis_returns_what_it_stored_witness :
  let w' := snd (complex_research_analysis Sample.healthy "AI impact on healthcare"
                   Sample.configured) in
  exists r c,
    agent_results (context w') !! "research_agent" = Some (ResearchOutput r) /\
    agent_results (context w') !! "creative_agent" = Some (CreativeOutput c) /\
    key_points r = ["imaging"; "triage"; "drug discovery"] /\
    content c = "two words".
Proof.
  destruct (complex_research_analysis Sample.healthy "AI impact on healthcare"
              Sample.configured) as [[s|e] w'] eqn:Hrun.
  - destruct (complex_analysis_returns_what_it_stored Sample.healthy _ Sample.configured
                s w' Hrun) as (r & c & Hr & Hc & _).
    exists r, c. split; [exact Hr|]. split; [exact Hc|].
    vm_compute in Hrun. injection Hrun as _ <-.
    vm_compute in Hr. vm_compute in Hc.
    injection Hr as <-. injection Hc as <-. split; reflexivity.
  - vm_compute in Hrun. discriminate Hrun.
Defined.

(** ** Further properties: the two readers of the context *)

Lemma slice_from_positive {A} (k : Z) (l : list A) :
  0 <= k -> Py.slice_from k l = drop (Z.to_nat k) l.
Proof.
  intros Hk. unfold Py.slice_from.
  destruct (Z.ltb_spec k 0); [lia|].
  destruct (Z.le_gt_cases k (Z.of_nat (length l))) as [Hle|Hgt].
  - rewrite Z.min_l by exact Hle. reflexivity.
  - rewrite Z.min_r by lia. rewrite Nat2Z.id.
    rewrite !drop_ge by lia. reflexivity.
Qed.

(** ** Further properties: the orchestrator *)

Lemma process_request_grows ext user_input w :
  exists cs ts xs, grows w (snd (process_request ext user_input w)) cs ts xs.
Proof.
  destruct (process_request_run ext user_input w) as [Hg1 Hrun].
  destruct (coordinator_agent_run_grows ext user_input (request_received ext user_input w))
    as (cs & ts & xs & Hg2 & _).
  destruct (coordinator_agent_run ext user_input (request_received ext user_input w))
    as [[out|e] w2]; simpl in Hg2; destruct Hrun as (w' & Hp & Hg3 & _);
    rewrite Hp; simpl; do 3 eexists;
    exact (grows_trans _ _ _ _ _ _ _ _ _ (grows_trans _ _ _ _ _ _ _ _ _ Hg1 Hg2) Hg3).
Qed.

(** X9. [process_request] works on the context and on the models only: it
    reads nothing from the console and prints nothing, and it leaves the
    session id, the environment and the running flag as they were, whether
    the request succeeds or fails. *)
Theorem process_request_touches_only_the_histories ext user_input w :
  let w' := snd (process_request ext user_input w) in
  session_id (context w') = session_id (context w) /\
  stdin w' = stdin w /\ stdout w' = stdout w /\
  environ w' = environ w /\ is_running w' = is_running w.
Proof.
  destruct (process_request_grows ext user_input w)
    as (cs & ts & xs & _ & _ & _ & Hs & He & Hi & Ho & Hr).
  simpl. repeat split; assumption.
Qed.

Lemma results_kept_refl w : results_kept w w.
Proof. split; auto. Qed.

Lemma results_kept_trans w1 w2 w3 :
  results_kept w1 w2 -> results_kept w2 w3 -> results_kept w1 w3.
Proof.
  intros [Hs1 Ho1] [Hs2 Ho2]. split.
  - intros k Hk. apply Hs2, Hs1, Hk.
  - intros k Hk. rewrite Ho2, Ho1 by exact Hk. reflexivity.
Qed.

Lemma results_kept_same w w' :
  agent_results (context w') = agent_results (context w) -> results_kept w w'.
Proof. intros H. unfold results_kept. rewrite H. split; auto. Qed.

Lemma results_kept_insert w w' name v :
  name ∈ specialist_names ->
  agent_results (context w') = <[name := v]> (agent_results (context w)) ->
  results_kept w w'.
Proof.
  intros Hname H. unfold results_kept. rewrite H. split.
  - intros k Hk. destruct (decide (name = k)) as [->|Hne].
    + rewrite lookup_insert_eq. eauto.
    + rewrite lookup_insert_ne by exact Hne. exact Hk.
  - intros k Hk. apply lookup_insert_ne. intros ->. contradiction.
Qed.

Lemma run_tool_results_kept ext call w : results_kept w (snd (run_tool ext call w)).
Proof.
  destruct call as [t | code lang | request ctype audience tn | | t];
    unfold run_tool; rewrite bind_run.
  - pose proof (delegate_research_results ext t w) as H.
    destruct (delegate_research ext t w) as [[r|e] w']; simpl.
    + eapply results_kept_insert; [|exact H]. unfold specialist_names. set_solver.
    + apply results_kept_same, H.
  - pose proof (delegate_code_analysis_results ext code (default "auto-detect" lang) w) as H.
    destruct (delegate_code_analysis ext code (default "auto-detect" lang) w)
      as [[r|e] w']; simpl.
    + eapply results_kept_insert; [|exact H]. unfold specialist_names. set_solver.
    + apply results_kept_same, H.
  - pose proof (delegate_content_creation_results ext request (default "article" ctype)
                  (default "general" audience) (default "professional" tn) w) as H.
    destruct (delegate_content_creation ext request (default "article" ctype)
                (default "general" audience) (default "professional" tn) w)
      as [[r|e] w']; simpl.
    + eapply results_kept_insert; [|exact H]. unfold specialist_names. set_solver.
    + apply results_kept_same, H.
  - simpl. apply results_kept_refl.
  - pose proof (complex_research_analysis_cases ext t w) as H. simpl in H.
    destruct (complex_research_analysis ext t w) as [[s|e] w']; simpl.
    + destruct H as (r & c & _ & _ & Hres).
      apply (results_kept_trans w
               (set_context
                  {| conversation_history := conversation_history (context w);
                     task_history := task_history (context w);
                     agent_results :=
                       <["research_agent" := ResearchOutput r]> (agent_results (context w));
                     session_id := session_id (context w) |} w)).
      * eapply results_kept_insert; [|reflexivity]. unfold specialist_names. set_solver.
      * eapply results_kept_insert; [|exact Hres]. unfold specialist_names. set_solver.
    + destruct H as [(_ & _ & Hres) | (r & ts & _ & _ & Hres)].
      * apply results_kept_same, Hres.
      * eapply results_kept_insert; [|exact Hres]. unfold specialist_names. set_solver.
Qed.

Lemma run_coordinator_results_kept ext user_input c :
  forall w, results_kept w (snd (run_coordinator ext user_input c w)).
Proof.
  induction c as [text | e | call next IH]; intros w.
  - apply results_kept_same. reflexivity.
  - apply results_kept_same. reflexivity.
  - simpl. rewrite bind_run. unfold modify at 1. rewrite bind_run.
    set (w1 := log_exchange "coordinator" user_input true (advance w)).
    assert (H1 : results_kept w w1) by (apply results_kept_same; reflexivity).
    pose proof (run_tool_results_kept ext call w1) as H2.
    destruct (run_tool ext call w1) as [[r|e] w2]; simpl in H2.
    + exact (results_kept_trans _ _ _ H1 (results_kept_trans _ _ _ H2 (IH r w2))).
    + exact (results_kept_trans _ _ _ H1 H2).
Qed.

(** X10. Whatever the coordinator does with a request, [process_request]
    never removes a stored result, and it writes the stored results under
    the names of the three specialists only: what is stored under any other
    name is as it was. *)
Theorem process_request_keeps_stored_results ext user_input w :
  let w' := snd (process_request ext user_input w) in
  (forall k, is_Some (agent_results (context w) !! k) ->
             is_Some (agent_results (context w') !! k)) /\
  (forall k, k ∉ ["research_agent"; "code_agent"; "creative_agent"] ->
             agent_results (context w') !! k = agent_results (context w) !! k).
Proof.
  destruct (process_request_run ext user_input w) as [_ Hrun].
  assert (H0 : results_kept w (request_received ext user_input w))
    by (apply results_kept_same; reflexivity).
  pose proof (run_coordinator_results_kept ext user_input
                (coordinator_backend ext (clock (request_received ext user_input w))
                   user_input)
                (request_received ext user_input w)) as H1.
  fold (coordinator_agent_run ext user_input (request_received ext user_input w)) in H1.
  destruct (coordinator_agent_run ext user_input (request_received ext user_input w))
    as [[out|e] w2]; simpl in H1; destruct Hrun as (w' & Hp & _ & Hres);
    rewrite Hp; simpl;
    exact (results_kept_trans _ _ _ H0
             (results_kept_trans _ _ _ H1 (results_kept_same _ _ Hres))).
Qed.

(** ** Further properties: the session driver of multi_agent.py *)

Lemma print_run s w : print s w = (Ok tt, set_stdout (stdout w ++ [s +:+ Py.nl]) w).
Proof. reflexivity. Qed.

Lemma gets_run {A} (f : World -> A) w : gets f w = (Ok (f w), w).
Proof. reflexivity. Qed.

Lemma modify_run f w : modify f w = (Ok tt, f w).
Proof. reflexivity. Qed.

Lemma run_context_of_run deps w :
  run_context_of deps w =
    (Raise (TypeError
       "RunContext.__init__() missing 2 required positional arguments: 'model' and 'usage'"),
     w).
Proof. reflexivity. Qed.

(** One step of a computation in [M], then the matches it decides. *)
Ltac run_step :=
  first [rewrite bind_run | rewrite gets_run | rewrite modify_run | rewrite print_run];
  cbv beta iota.

Lemma input_line p w line rest :
  stdin w = line :: rest ->
  input p w = (Ok line, set_stdin rest (set_stdout (stdout w ++ [p]) w)).
Proof. intros H. unfold input, write, read_line, modify, bind. simpl. rewrite H. reflexivity. Qed.

Lemma input_eof p w :
  stdin w = [] -> input p w = (Raise EOFError, set_stdout (stdout w ++ [p]) w).
Proof. intros H. unfold input, write, read_line, modify, bind. simpl. rewrite H. reflexivity. Qed.

Lemma process_request_total ext user_input w :
  exists response w' cs ts xs,
    process_request ext user_input w = (Ok response, w') /\ grows w w' cs ts xs.
Proof.
  destruct (process_request_grows ext user_input w) as (cs & ts & xs & Hg).
  destruct (process_request_run ext user_input w) as [_ Hrun].
  destruct (coordinator_agent_run ext user_input (request_received ext user_input w))
    as [[out|e] w2]; destruct Hrun as (w' & Hp & _); rewrite Hp in Hg;
    do 5 eexists; (split; [exact Hp | exact Hg]).
Qed.

(** Closed decidable facts, settled by evaluation. *)
Ltac by_evaluation :=
  cbv beta;
  match goal with
  | |- ~ ?P => exact (bool_decide_eq_false_1 P eq_refl)
  | H : ?P |- False => exact (bool_decide_eq_false_1 P eq_refl H)
  | |- ?P => exact (bool_decide_eq_true_1 P eq_refl)
  end.

Lemma truthy_false s : Py.truthy s = false -> s = EmptyString.
Proof. destruct s; [reflexivity | discriminate]. Qed.

(** One turn of the session on a line of input, whatever the line. *)
Lemma session_turn_line ext w line rest :
  stdin w = line :: rest ->
  exists t w',
    session_turn ext w = (Ok t, w') /\
    stdin w' = rest /\ is_running w' = is_running w /\
    (quit_command line ->
     t = Break /\ exchanges w' = exchanges w /\ context w' = context w /\
     stdout w' = stdout w ++
       [session_prompt; "👋 Multi-Agent System shutting down. Goodbye!" +:+ Py.nl]) /\
    (~ quit_command line -> t = Continue) /\
    (Py.truthy (Py.strip line) = false ->
     exchanges w' = exchanges w /\ context w' = context w /\
     stdout w' = stdout w ++ [session_prompt]).
Proof.
  intros Hin. unfold session_turn, try_except. rewrite bind_run.
  fold session_prompt. rewrite (input_line _ _ _ _ Hin). cbv zeta.
  set (w1 := set_stdin rest (set_stdout (stdout w ++ [session_prompt]) w)).
  fold (quit_command line).
  destruct (bool_decide (quit_command line)) eqn:Hq.
  - apply bool_decide_eq_true in Hq.
    do 2 run_step. do 2 eexists. split; [reflexivity|].
    split; [reflexivity|]. split; [reflexivity|].
    split; [|split].
    + intros _. split; [reflexivity|]. split; [reflexivity|]. split; [reflexivity|].
      simpl. rewrite <- app_assoc. reflexivity.
    + intros Hn. contradiction.
    + intros Hblank. apply truthy_false in Hblank.
      exfalso. unfold quit_command in Hq. rewrite Hblank in Hq.
      by_evaluation.
  - apply bool_decide_eq_false in Hq.
    destruct (bool_decide (Py.lower (Py.strip line) = "history")) eqn:Hh.
    + apply bool_decide_eq_true in Hh.
      do 3 run_step. rewrite run_context_of_run. cbv beta iota. do 2 run_step.
      do 2 eexists. split; [reflexivity|].
      split; [reflexivity|]. split; [reflexivity|].
      split; [intros Hy; contradiction|]. split; [reflexivity|].
      intros Hblank. apply truthy_false in Hblank. rewrite Hblank in Hh.
      vm_compute in Hh. discriminate Hh.
    + destruct (Py.truthy (Py.strip line)) eqn:Ht; unfold negb; cbv iota.
      * do 3 run_step.
        destruct (process_request_total ext (Py.strip line)
                    (set_stdout (stdout w1 ++ [(Py.nl +:+ "🤖 Coordinating agents...") +:+ Py.nl]) w1))
          as (response & w2 & cs & ts & xs & -> & Hg).
        cbv beta iota. do 2 run_step.
        destruct Hg as (_ & _ & _ & _ & _ & Hi & _ & Hr).
        do 2 eexists. split; [reflexivity|].
        split; [simpl; rewrite Hi; reflexivity|].
        split; [simpl; rewrite Hr; reflexivity|].
        split; [intros Hy; contradiction|]. split; [reflexivity|].
        discriminate.
      * do 2 eexists. split; [reflexivity|].
        split; [reflexivity|]. split; [reflexivity|].
        split; [intros Hy; contradiction|]. split; [reflexivity|].
        intros _. split; [reflexivity|]. split; reflexivity.
Qed.

(** X11. A line that, stripped and lowered, is [quit], [exit], [bye] or [q]
    ends the session turn with a break: the goodbye is printed, no model is
    called and the context is not written. *)
Theorem quit_command_breaks_the_session ext w line rest :
  stdin w = line :: rest ->
  Py.lower (Py.strip line) ∈ ["quit"; "exit"; "bye"; "q"] ->
  exists w',
    session_turn ext w = (Ok Break, w') /\
    stdin w' = rest /\ exchanges w' = exchanges w /\ context w' = context w /\
    stdout w' =
      stdout w ++ [Py.nl +:+ "💬 You: ";
                   "👋 Multi-Agent System shutting down. Goodbye!" +:+ Py.nl].
Proof.
  intros Hin Hquit.
  destruct (session_turn_line ext w line rest Hin)
    as (t & w' & Hrun & Hrest & _ & Hq & _).
  destruct (Hq Hquit) as (-> & Hx & Hc & Ho).
  exists w'. repeat split; assumption.
Qed.

Lemma quit_command_breaks_the_session_witness :
  exists w',
    session_turn Sample.healthy (Sample2.session ["  QUIT  "; "later"]) = (Ok Break, w') /\
    stdin w' = ["later"] /\ exchanges w' = [] /\ context w' = Sample.empty_context.
Proof.
  destruct (quit_command_breaks_the_session Sample.healthy
              (Sample2.session ["  QUIT  "; "later"]) "  QUIT  " ["later"] eq_refl)
    as (w' & Hrun & Hrest & Hx & Hc & _).
  - by_evaluation.
  - exists w'. repeat split; assumption.
Defined.

(** X12. A line that is empty once stripped is skipped: the turn goes on
    to the next one, with the prompt printed and nothing else done: no
    model is called and the context is not written. *)
Theorem blank_line_is_skipped ext w line rest :
  stdin w = line :: rest ->
  Py.truthy (Py.strip line) = false ->
  exists w',
    session_turn ext w = (Ok Continue, w') /\
    stdin w' = rest /\ exchanges w' = exchanges w /\ context w' = context w /\
    stdout w' = stdout w ++ [Py.nl +:+ "💬 You: "].
Proof.
  intros Hin Hblank.
  destruct (session_turn_line ext w line rest Hin)
    as (t & w' & Hrun & Hrest & _ & _ & Hn & Hb).
  destruct (Hb Hblank) as (Hx & Hc & Ho).
  assert (Hnot : ~ quit_command line).
  { unfold quit_command. rewrite (truthy_false _ Hblank).
    by_evaluation. }
  rewrite (Hn Hnot) in Hrun.
  exists w'. repeat split; assumption.
Qed.

Lemma blank_line_is_skipped_witness :
  exists w',
    session_turn Sample.healthy (Sample2.session ["   "; "quit"]) = (Ok Continue, w') /\
    stdin w' = ["quit"] /\ exchanges w' = [] /\ context w' = Sample.empty_context.
Proof.
  destruct (blank_line_is_skipped Sample.healthy (Sample2.session ["   "; "quit"])
              "   " ["quit"] eq_refl eq_refl) as (w' & Hrun & Hrest & Hx & Hc & _).
  exists w'. repeat split; assumption.
Defined.





Lemma session_turn_eof ext w :
  stdin w = [] ->
  session_turn ext w =
    (Ok Continue,
     set_stdout (stdout w ++ [session_prompt;
                              (Py.nl +:+ "❌ Error: " +:+ exn_str EOFError) +:+ Py.nl]) w).
Proof.
  intros Hin. unfold session_turn, try_except. rewrite bind_run.
  fold session_prompt. rewrite (input_eof _ _ Hin), bind_run, print_run.
  simpl. rewrite <- app_assoc. reflexivity.
Qed.

(** X14. Once the input is exhausted the session loop does not end: each
    further turn fails to read a line, prints the error and goes on, so
    that after any number of turns the loop is still to be continued.  No
    model is called and the context is not written meanwhile. *)
Theorem session_loop_spins_on_exhausted_input ext fuel :
  forall w,
    stdin w = [] -> is_running w = true ->
    exists w',
      session_loop ext fuel w = (Ok OutOfFuel, w') /\
      exchanges w' = exchanges w /\ context w' = context w /\
      length (stdout w') = (length (stdout w) + 2 * fuel)%nat.
Proof.
  induction fuel as [|fuel IH]; intros w Hin Hrun.
  - exists w. split; [reflexivity|]. repeat split. lia.
  - simpl session_loop. do 2 run_step. rewrite Hrun. run_step.
    rewrite (session_turn_eof ext w Hin).
    destruct (IH (set_stdout (stdout w ++ [session_prompt;
                    (Py.nl +:+ "❌ Error: " +:+ exn_str EOFError) +:+ Py.nl]) w))
      as (w' & -> & Hx & Hc & Hlen); [exact Hin | exact Hrun |].
    exists w'. split; [reflexivity|]. split; [exact Hx|]. split; [exact Hc|].
    rewrite Hlen. simpl. rewrite length_app. simpl. lia.
Qed.

Lemma session_loop_spins_on_exhausted_input_witness :
  exists w',
    session_loop Sample.healthy 7 (Sample2.session []) = (Ok OutOfFuel, w') /\
    exchanges w' = [] /\ length (stdout w') = 14%nat.
Proof.
  destruct (session_loop_spins_on_exhausted_input Sample.healthy 7 (Sample2.session [])
              eq_refl eq_refl) as (w' & Hrun & Hx & _ & Hlen).
  exists w'. split; [exact Hrun|]. split; [exact Hx | exact Hlen].
Defined.

(** ** Further properties: [main] of multi_agent.py *)

Lemma error_text_flagged s :
  Py.truthy (error_prefix +:+ s) = true /\ Py.startswith "❌" (error_prefix +:+ s) = true.
Proof. unfold error_prefix. cbv [String.append]. split; reflexivity. Qed.

Lemma process_request_coordinator_down ext user_input w e :
  (forall n p, coordinator_backend ext n p = ModelFailure e) ->
  exists w',
    process_request ext user_input w = (Ok (error_prefix +:+ exn_str e), w') /\
    exchanges w' = exchanges w ++ [exchange "coordinator" user_input false] /\
    task_history (context w') = task_history (context w) /\
    stdin w' = stdin w /\ stdout w' = stdout w /\ is_running w' = is_running w.
Proof.
  intros Hdown.
  unfold process_request, try_except, coordinator_agent_run. run_tool_body.
  rewrite Hdown. simpl. eexists. split; [reflexivity|]. simpl. repeat split.
Qed.

(** X15. With the key set but the coordinator's model out of reach, [main]
    runs its test request, gets the error text back, prints that the system
    test failed and returns: the session is not started, nothing is read
    from the console, and the only model call made is the failed one. *)
Theorem main_stops_when_the_system_test_fails ext fuel w key e :
  environ w !! "GEMINI_API_KEY" = Some key ->
  Py.truthy key = true ->
  (forall n p, coordinator_backend ext n p = ModelFailure e) ->
  exists w',
    main ext fuel w = (Ok tt, w') /\
    stdin w' = stdin w /\ is_running w' = false /\
    exchanges w' =
      exchanges w ++
        [exchange "coordinator" "Hello, can you help me research Python programming?" false] /\
    stdout w' =
      stdout w ++
        [ "🚀 Initializing Multi-Agent System..." +:+ Py.nl;
          "🔧 Testing agent coordination..." +:+ Py.nl;
          "❌ System test failed. Please check your setup." +:+ Py.nl ].
Proof.
  intros Hkey Htruthy Hdown.
  unfold main, getenv, try_except. repeat run_step. cbn [environ set_stdout].
  rewrite Hkey. unfold env_truthy. rewrite Htruthy. unfold negb. cbv iota.
  repeat run_step. unfold new_system, new_context. repeat run_step.
  match goal with
  | |- context [process_request ext ?msg ?w0] =>
      destruct (process_request_coordinator_down ext msg w0 e Hdown)
        as (w1 & -> & Hx & _ & Hi & Ho & Hr)
  end.
  cbv beta iota.
  destruct (error_text_flagged (exn_str e)) as [-> ->]. cbn [andb negb].
  run_step.
  eexists. split; [reflexivity|]. simpl.
  rewrite Hi, Hr, Hx, Ho. simpl. rewrite <- !app_assoc.
  repeat split.
Qed.

Lemma main_stops_when_the_system_test_fails_witness :
  exists w',
    main Sample2.coordinator_down 10 Sample.configured = (Ok tt, w') /\
    stdin w' = ["n"; "history"; "quit"] /\ is_running w' = false.
Proof.
  destruct (main_stops_when_the_system_test_fails Sample2.coordinator_down 10
              Sample.configured "secret" _ eq_refl eq_refl (fun _ _ => eq_refl))
    as (w' & Hrun & Hi & Hr & _).
  exists w'. split; [exact Hrun|]. split; [exact Hi | exact Hr].
Defined.

(** ** Further properties: main.py *)

Lemma research_topic_run ext t w :
  exists o w',
    research_topic ext t w = (Ok o, w') /\
    context w' = context w /\ stdin w' = stdin w /\
    exchanges w' =
      exchanges w ++ [exchange "research_agent" ("Research this topic: " +:+ t)
                        (bool_decide (is_Some o))] /\
    match research_backend ext (clock w) ("Research this topic: " +:+ t) with
    | Answer c =>
        match validate_research c with
        | Ok r => o = Some r
        | Raise _ => o = None
        end
    | Unreachable _ => o = None
    end.
Proof.
  unfold research_topic, try_except, bind, print, write, modify, ret,
    research_agent_run, agent_run.
  simpl.
  destruct (research_backend ext (clock w) ("Research this topic: " +:+ t)) as [c|msg];
    simpl.
  - destruct (validate_research c) as [r|e]; simpl;
      do 2 eexists; (split; [reflexivity|]); simpl; repeat split.
  - do 2 eexists. split; [reflexivity|]. simpl. repeat split.
Qed.

(** X16. [research_topic] never raises.  It calls the research agent once,
    with the topic in the prompt, and does not write the context.  It
    returns the result when the backend's answer is accepted, and [None]
    when the backend cannot be reached or its answer is rejected. *)
Theorem research_topic_never_raises ext t w :
  exists o w',
    research_topic ext t w = (Ok o, w') /\
    context w' = context w /\
    exchanges w' =
      exchanges w ++ [exchange "research_agent" ("Research this topic: " +:+ t)
                        (bool_decide (is_Some o))] /\
    match research_backend ext (clock w) ("Research this topic: " +:+ t) with
    | Answer c =>
        match validate_research c with
        | Ok r => o = Some r
        | Raise _ => o = None
        end
    | Unreachable _ => o = None
    end.
Proof.
  destruct (research_topic_run ext t w) as (o & w' & Hrun & Hc & _ & Hx & Ho).
  exists o, w'. repeat split; assumption.
Qed.






(** X18. Without a value for [GEMINI_API_KEY], main.py run as a script ends
    while it builds its research agent, with the [ValueError] of
    [get_gemini_model] and in the world it started in.  Its [main] on its
    own prints the diagnostic and returns: it calls no model, reads nothing
    and does not start the interactive mode. *)
Theorem research_script_stops_without_key ext fuel w :
  env_truthy (environ w !! "GEMINI_API_KEY") = false ->
  ResearchCLI.script ext fuel w =
    (Raise (ValueError "Please set GEMINI_API_KEY in your .env file"), w) /\
  exists w',
    ResearchCLI.main ext fuel w = (Ok tt, w') /\
    exchanges w' = exchanges w /\ stdin w' = stdin w /\ context w' = context w /\
    stdout w' =
      stdout w ++
        [ "🚀 Initializing Research Agent..." +:+ Py.nl;
          "❌ GEMINI_API_KEY not found!" +:+ Py.nl;
          "Please create a .env file with: GEMINI_API_KEY=your_api_key_here" +:+ Py.nl ].
Proof.
  intros Hkey. split.
  - unfold ResearchCLI.script. run_step.
    unfold get_gemini_model, bind, getenv, gets, raise.
    destruct (environ w !! "GEMINI_API_KEY") as [[|a s]|]; try reflexivity.
    discriminate Hkey.
  - unfold ResearchCLI.main, getenv. repeat run_step. cbn [environ set_stdout].
    rewrite Hkey. cbn [negb]. repeat run_step.
    eexists. split; [reflexivity|]. simpl. rewrite <- !app_assoc. repeat split.
Qed.

Lemma research_script_stops_without_key_witness :
  ResearchCLI.script Sample.healthy 10 Sample.unconfigured =
    (Raise (ValueError "Please set GEMINI_API_KEY in your .env file"), Sample.unconfigured).
Proof.
  exact (proj1 (research_script_stops_without_key Sample.healthy 10 Sample.unconfigured
                  eq_refl)).
Defined.

(** ** Further properties: the formatting functions *)

Lemma append_cons a s t : String a s +:+ t = String a (s +:+ t).
Proof. reflexivity. Qed.

Lemma append_nil_r s : s +:+ EmptyString = s.
Proof. induction s as [|a s IH]; [reflexivity|]. rewrite append_cons, IH. reflexivity. Qed.

Lemma append_assoc s1 s2 s3 : (s1 +:+ s2) +:+ s3 = s1 +:+ (s2 +:+ s3).
Proof.
  induction s1 as [|a s1 IH]; [reflexivity|]. rewrite !append_cons, IH. reflexivity.
Qed.

Lemma concat_empty_cons x xs :
  String.concat EmptyString (x :: xs) = x +:+ String.concat EmptyString xs.
Proof.
  destruct xs as [|y ys].
  - simpl. rewrite append_nil_r. reflexivity.
  - reflexivity.
Qed.

(** A loop that appends one piece per item appends their concatenation. *)
Lemma fold_left_append {A} (f : A -> string) (l : list A) (init : string) :
  fold_left (fun out x => out +:+ f x) l init =
    init +:+ String.concat EmptyString (map f l).
Proof.
  revert init. induction l as [|x l IH]; intros init.
  - simpl. rewrite append_nil_r. reflexivity.
  - cbn [fold_left map]. rewrite IH, concat_empty_cons, append_assoc. reflexivity.
Qed.

Lemma bullets_block head items output :
  bullets head items output = output +:+ bullet_block head items.
Proof.
  unfold bullets, bullet_block. destruct items as [|i items].
  - rewrite append_nil_r. reflexivity.
  - rewrite (fold_left_append (fun item => "   • " +:+ item +:+ Py.nl)).
    rewrite !append_assoc. reflexivity.
Qed.

Lemma enumerate_lookup {A} (l : list A) :
  forall i k x, l !! k = Some x -> Py.enumerate i l !! k = Some (i + Z.of_nat k, x).
Proof.
  induction l as [|y l IH]; intros i k x Hk; [discriminate|].
  destruct k as [|k]; simpl in *.
  - injection Hk as ->. f_equal. f_equal. lia.
  - rewrite (IH (i + 1) k x Hk). f_equal. f_equal. lia.
Qed.

(** X19. The text of a code analysis is its language line, its complexity
    line and then one block for the issues, one for the suggestions and one
    for the security concerns, in this order; the block of an empty list is
    absent altogether, heading included, and a block otherwise has its
    heading and one bullet line per item, in the order of the list. *)
Theorem format_code_result_blocks result :
  format_code_result result =
    ("💻 Language: " +:+ language result +:+ Py.nl) +:+
    ("📊 Complexity Score: " +:+ Py.str_int (complexity_score result) +:+ "/10" +:+ Py.nl) +:+
    bullet_block "⚠️  Issues Found:" (issues_found result) +:+
    bullet_block "💡 Suggestions:" (suggestions result) +:+
    bullet_block "🔒 Security Concerns:" (security_concerns result).
Proof.
  unfold format_code_result. cbv zeta.
  rewrite !bullets_block, !append_assoc. reflexivity.
Qed.

(** X20. The text of a research result is its topic line, its summary
    line, the heading of the key points, one line per key point, the
    confidence line, and the line of recommended sources when there are
    any and nothing when there are none.  The key points come in the order
    of the list, the one at position [k] numbered [k + 1]. *)
Theorem format_research_result_lines result :
  format_research_result result =
    ("📊 Topic: " +:+ topic result +:+ Py.nl) +:+
    ("📝 Summary: " +:+ summary result +:+ Py.nl) +:+
    ("🔑 Key Points:" +:+ Py.nl) +:+
    String.concat EmptyString (map key_point_line (Py.enumerate 1 (key_points result))) +:+
    ("📈 Confidence: " +:+ confidence_level result +:+ Py.nl) +:+
    match sources_needed result with
    | [] => EmptyString
    | _ :: _ =>
        "📚 Recommended Sources: " +:+ Py.join ", " (sources_needed result) +:+ Py.nl
    end /\
  (forall k point,
      key_points result !! k = Some point ->
      Py.enumerate 1 (key_points result) !! k = Some (Z.of_nat k + 1, point)).
Proof.
  split.
  - unfold format_research_result. cbv zeta.
    change (fun out ip => out +:+ "   " +:+ Py.str_int (fst ip) +:+ ". " +:+ snd ip +:+ Py.nl)
      with (fun out ip => out +:+ key_point_line ip).
    rewrite (fold_left_append key_point_line).
    destruct (sources_needed result) as [|s0 srcs].
    + rewrite !append_assoc, append_nil_r. reflexivity.
    + rewrite !append_assoc. reflexivity.
  - intros k point Hk. rewrite (enumerate_lookup _ 1 k point Hk).
    f_equal. f_equal. lia.
Qed.

Lemma format_research_result_lines_witness :
  Py.enumerate 1 (key_points {| topic := "t"; summary := "s";
                               key_points := ["a"; "b"; "c"];
                               confidence_level := "High"; sources_needed := [] |}) !! 2%nat
    = Some (Z.of_nat 2 + 1, "c").
Proof.
  exact (proj2 (format_research_result_lines
                  {| topic := "t"; summary := "s"; key_points := ["a"; "b"; "c"];
                     confidence_level := "High"; sources_needed := [] |})
               2%nat "c" eq_refl).
Defined.

(** ** Further properties: delegation and report together *)

(** X21. What a delegation writes is what the reporter shows.  After a
    research delegation that succeeded on a context without tasks, the task
    history report counts one task and lists it as number 1, with the kind
    in capitals, the topic and the confidence of the result returned, the
    research agent and the status [completed]. *)
Theorem report_after_research_delegation ext t w r w' :
  task_history (context w) = [] ->
  delegate_research ext t w = (Ok r, w') ->
  get_task_history (context w') =
    "📊 Session " +:+ session_id (context w) +:+ " - 1 tasks completed:" +:+ Py.nl +:+ Py.nl
      +:+ "1. RESEARCH: Researched: " +:+ topic r +:+ " (Confidence: "
      +:+ confidence_level r +:+ ")" +:+ Py.nl
      +:+ "   Agents: research_agent | Status: completed" +:+ Py.nl +:+ Py.nl.
Proof.
  intros Hempty Hrun. pose proof (delegate_research_spec ext t w) as H.
  rewrite Hrun in H. destruct H as (ts1 & ts2 & Hg).
  pose proof (grows_tasks _ _ _ _ _ Hg) as Ht. rewrite Hempty in Ht. simpl in Ht.
  destruct Hg as (_ & _ & _ & Hs & _).
  unfold get_task_history, task_history_header, Py.str_len. rewrite Ht, Hs.
  change (Py.last_slice 5 [research_record r ts2]) with [research_record r ts2].
  cbn [fold_left Py.enumerate render_task research_record task_type agents_used
       status result_summary].
  change (Py.upper "research") with "RESEARCH".
  change (Py.join ", " ["research_agent"]) with "research_agent".
  change (Py.str_int 1) with "1".
  change (Py.str_int (Z.of_nat 1)) with "1".
  rewrite !append_assoc. cbv [String.append Py.nl]. reflexivity.
Qed.

Lemma report_after_research_delegation_witness :
  get_task_history
    (context (snd (delegate_research Sample.healthy "AI impact on healthcare"
                     Sample.configured))) =
    "📊 Session 20250101_000000 - 1 tasks completed:" +:+ Py.nl +:+ Py.nl
      +:+ "1. RESEARCH: Researched: AI impact on healthcare (Confidence: Medium)" +:+ Py.nl
      +:+ "   Agents: research_agent | Status: completed" +:+ Py.nl +:+ Py.nl.
Proof.
  destruct (delegate_research Sample.healthy "AI impact on healthcare" Sample.configured)
    as [[r|e] w'] eqn:Hrun.
  - cbn [snd].
    rewrite (report_after_research_delegation Sample.healthy _ Sample.configured r w'
               eq_refl Hrun).
    vm_compute in Hrun. injection Hrun as <- _. vm_compute. reflexivity.
  - vm_compute in Hrun. discriminate Hrun.
Defined.


(** ** The writes of the tools and of a whole run *)

Lemma complex_research_analysis_writes ext t w :
  exists cs ts xs,
    grows w (snd (complex_research_analysis ext t w)) cs ts xs /\ tool_writes cs ts xs.
Proof.
  unfold complex_research_analysis. rewrite bind_run.
  destruct (add_conversation_run ext "system" ("Starting complex analysis: " +:+ t)
              "coordinator" w) as (w1 & -> & Hg1 & _).
  rewrite bind_run.
  pose proof (delegate_research_spec ext t w1) as Hr.
  destruct (delegate_research ext t w1) as [[r|e] w2].
  - destruct Hr as (ts1 & ts3 & Hg2).
    rewrite bind_run. fold (report_request r).
    pose proof (delegate_content_creation_spec ext (report_request r) "report"
                  "professional" "analytical" w2) as Hc.
    pose proof (grows_trans _ _ _ _ _ _ _ _ _ Hg1 Hg2) as Hg12.
    destruct (delegate_content_creation ext (report_request r) "report"
                "professional" "analytical" w2) as [[c|e] w3].
    + destruct Hc as (ts2 & ts4 & Hg3).
      assert (Hlast : grows w3
                (snd ((let* task_summary :=
                         new_task_summary ext "complex_analysis"
                           ["research_agent"; "creative_agent"] "completed"
                           ("Complex analysis of '" +:+ t
                              +:+ "' with research and report generation") in
                       add_task_result task_summary) w3))
                [] [complex_record t (isoformat ext (clock w3))] [])
        by grows_by_computation.
      do 3 eexists.
      split; [exact (grows_trans _ _ _ _ _ _ _ _ _
                       (grows_trans _ _ _ _ _ _ _ _ _ Hg12 Hg3) Hlast)|].
      cbn [app]. apply complex_done.
    + destruct Hc as (ts2 & Hg3).
      do 3 eexists. split; [exact (grows_trans _ _ _ _ _ _ _ _ _ Hg12 Hg3)|].
      cbn [app]. apply complex_writer_failed.
  - destruct Hr as (ts1 & Hg2).
    do 3 eexists. split; [exact (grows_trans _ _ _ _ _ _ _ _ _ Hg1 Hg2)|].
    cbn [app]. apply complex_research_failed.
Qed.

Lemma run_tool_writes ext call w :
  exists cs ts xs,
    grows w (snd (run_tool ext call w)) cs ts xs /\ tool_writes cs ts xs.
Proof.
  destruct call as [t | code lang | request ctype audience tn | | t];
    unfold run_tool; rewrite bind_run.
  - pose proof (delegate_research_spec ext t w) as H.
    destruct (delegate_research ext t w) as [[r|e] w'].
    + destruct H as (ts1 & ts2 & Hg). do 3 eexists. split; [exact Hg | apply research_done].
    + destruct H as (ts1 & Hg). do 3 eexists. split; [exact Hg | apply research_failed].
  - pose proof (delegate_code_analysis_spec ext code (default "auto-detect" lang) w) as H.
    destruct (delegate_code_analysis ext code (default "auto-detect" lang) w) as [[r|e] w'].
    + destruct H as (ts1 & ts2 & Hg). do 3 eexists. split; [exact Hg | apply code_done].
    + destruct H as (ts1 & Hg). do 3 eexists. split; [exact Hg | apply code_failed].
  - pose proof (delegate_content_creation_spec ext request (default "article" ctype)
                  (default "general" audience) (default "professional" tn) w) as H.
    destruct (delegate_content_creation ext request (default "article" ctype)
                (default "general" audience) (default "professional" tn) w) as [[r|e] w'].
    + destruct H as (ts1 & ts2 & Hg). do 3 eexists. split; [exact Hg | apply content_done].
    + destruct H as (ts1 & Hg). do 3 eexists. split; [exact Hg | apply content_failed].
  - simpl. exists [], [], []. split; [apply grows_refl | apply history_read].
  - destruct (complex_research_analysis_writes ext t w) as (cs & ts & xs & Hg & Hw).
    destruct (complex_research_analysis ext t w) as [[s|e] w']; simpl in Hg;
      exists cs, ts, xs; (split; [exact Hg | exact Hw]).
Qed.

Lemma run_coordinator_writes ext user_input c :
  forall w,
  exists cs ts xs,
    grows w (snd (run_coordinator ext user_input c w)) cs ts xs /\
    run_writes user_input cs ts xs.
Proof.
  assert (Hlog : forall ok w,
             grows w (log_exchange "coordinator" user_input ok (advance w))
                   [] [] [exchange "coordinator" user_input ok])
    by (intros; grows_by_computation).
  induction c as [text | e | call next IH]; intros w.
  - exists [], [], [exchange "coordinator" user_input true].
    split; [apply Hlog | apply run_final].
  - exists [], [], [exchange "coordinator" user_input false].
    split; [apply Hlog | apply run_final].
  - simpl. rewrite bind_run. unfold modify at 1. rewrite bind_run.
    set (w1 := log_exchange "coordinator" user_input true (advance w)).
    destruct (run_tool_writes ext call w1) as (cs1 & ts1 & xs1 & Hg1 & Hw1).
    destruct (run_tool ext call w1) as [[r|e] w2]; simpl in Hg1.
    + destruct (IH r w2) as (cs2 & ts2 & xs2 & Hg2 & Hw2).
      exists (cs1 ++ cs2), (ts1 ++ ts2),
        (exchange "coordinator" user_input true :: xs1 ++ xs2).
      split; [exact (grows_trans _ _ _ _ _ _ _ _ _ (Hlog true w)
                       (grows_trans _ _ _ _ _ _ _ _ _ Hg1 Hg2))|].
      apply run_tool_then; assumption.
    + exists cs1, ts1, (exchange "coordinator" user_input true :: xs1).
      split; [exact (grows_trans _ _ _ _ _ _ _ _ _ (Hlog true w) Hg1)|].
      apply run_tool_last. exact Hw1.
Qed.

Lemma coordinator_agent_run_writes ext user_input w :
  exists cs ts xs,
    grows w (snd (coordinator_agent_run ext user_input w)) cs ts xs /\
    run_writes user_input cs ts xs.
Proof. unfold coordinator_agent_run. apply run_coordinator_writes. Qed.

Lemma tool_writes_system_only cs ts xs : tool_writes cs ts xs -> system_only cs.
Proof. intros H. destruct H; repeat constructor. Qed.

Lemma tool_writes_tallied cs ts xs : tool_writes cs ts xs -> tallied ts xs.
Proof.
  intros H. destruct H.
  - apply tallied_accepted. reflexivity.
  - apply tallied_failed.
  - apply tallied_accepted. reflexivity.
  - apply tallied_failed.
  - apply tallied_accepted. reflexivity.
  - apply tallied_failed.
  - apply tallied_nil.
  - apply tallied_complex_success.
  - apply tallied_failed.
  - apply (tallied_app [_] [] [_] [_]); [apply tallied_accepted; reflexivity|].
    apply tallied_failed.
Qed.

(** When none of a tool's specialist calls was accepted, it wrote no record. *)
Lemma tool_writes_unaccepted cs ts xs :
  tool_writes cs ts xs ->
  Forall (fun x => ex_agent x <> "coordinator" -> ex_ok x = false) xs ->
  ts = [].
Proof.
  intros H Hall. destruct H; try reflexivity;
    apply Forall_cons in Hall as [Hfirst _]; simpl in Hfirst;
    discriminate Hfirst; discriminate.
Qed.

Lemma run_writes_system_only u cs ts xs : run_writes u cs ts xs -> system_only cs.
Proof.
  induction 1 as [ok | cs1 ts1 xs1 cs2 ts2 xs2 Hw _ IH | cs1 ts1 xs1 Hw].
  - constructor.
  - apply system_only_app; [exact (tool_writes_system_only _ _ _ Hw) | exact IH].
  - exact (tool_writes_system_only _ _ _ Hw).
Qed.

Lemma run_writes_tallied u cs ts xs : run_writes u cs ts xs -> tallied ts xs.
Proof.
  induction 1 as [ok | cs1 ts1 xs1 cs2 ts2 xs2 Hw _ IH | cs1 ts1 xs1 Hw].
  - apply tallied_coordinator.
  - apply (tallied_app [] _ [_] _); [apply tallied_coordinator|].
    apply tallied_app; [exact (tool_writes_tallied _ _ _ Hw) | exact IH].
  - apply (tallied_app [] _ [_] _); [apply tallied_coordinator|].
    exact (tool_writes_tallied _ _ _ Hw).
Qed.

Lemma run_writes_unaccepted u cs ts xs :
  run_writes u cs ts xs ->
  Forall (fun x => ex_agent x <> "coordinator" -> ex_ok x = false) xs ->
  ts = [].
Proof.
  induction 1 as [ok | cs1 ts1 xs1 cs2 ts2 xs2 Hw _ IH | cs1 ts1 xs1 Hw]; intros Hall.
  - reflexivity.
  - apply Forall_cons in Hall as [_ Hall]. apply Forall_app in Hall as [H1 H2].
    rewrite (tool_writes_unaccepted _ _ _ Hw H1), (IH H2). reflexivity.
  - apply Forall_cons in Hall as [_ Hall].
    exact (tool_writes_unaccepted _ _ _ Hw Hall).
Qed.

(** ** The orchestrator: errors, shape of a call, writes kept *)

(** C2. [process_request] always returns a text, never an exception.  When
    the coordinator's run raises, at its own model or in a delegation, the
    text returned is [❌ Error processing request: ] followed by the error's
    message, so that it begins with the cross mark [main] looks for, and the
    conversation history ends with a system entry, of agent [error], holding
    that text.  When the run succeeds the text returned is the coordinator's
    own, with nothing put before it. *)
Theorem process_request_never_raises ext user_input w :
  (exists response w', process_request ext user_input w = (Ok response, w')) /\
  (forall e w2,
      coordinator_agent_run ext user_input (request_received ext user_input w) = (Raise e, w2) ->
      exists w' ts,
        process_request ext user_input w =
          (Ok ("❌ Error processing request: " +:+ exn_str e), w') /\
        Py.startswith "❌" ("❌ Error processing request: " +:+ exn_str e) = true /\
        conversation_history (context w') =
          conversation_history (context w2) ++
            [{| entry_role := "system";
                entry_content := "❌ Error processing request: " +:+ exn_str e;
                entry_agent := "error"; entry_timestamp := ts |}]) /\
  (forall out w2,
      coordinator_agent_run ext user_input (request_received ext user_input w) = (Ok out, w2) ->
      fst (process_request ext user_input w) = Ok out).
Proof.
  destruct (process_request_run ext user_input w) as [_ Hrun].
  split; [|split].
  - destruct (coordinator_agent_run ext user_input (request_received ext user_input w))
      as [[out|e] w2]; destruct Hrun as (w' & Hp & _); eauto.
  - intros e w2 Hfail. rewrite Hfail in Hrun. destruct Hrun as (w' & Hp & Hg & _).
    exists w', (isoformat ext (clock w2)).
    split; [exact Hp|]. split; [exact (proj2 (error_text_flagged (exn_str e)))|].
    exact (grows_conversation _ _ _ _ _ Hg).
  - intros out w2 Hok. rewrite Hok in Hrun. destruct Hrun as (w' & Hp & _).
    rewrite Hp. reflexivity.
Qed.

Lemma process_request_never_raises_witness :
  exists e w2 w' ts,
    coordinator_agent_run Sample.research_down "Research quantum computing trends"
      (request_received Sample.research_down "Research quantum computing trends"
         Sample.configured) = (Raise e, w2) /\
    process_request Sample.research_down "Research quantum computing trends"
      Sample.configured = (Ok ("❌ Error processing request: " +:+ exn_str e), w') /\
    Py.startswith "❌" ("❌ Error processing request: " +:+ exn_str e) = true /\
    conversation_history (context w') =
      conversation_history (context w2) ++
        [{| entry_role := "system";
            entry_content := "❌ Error processing request: " +:+ exn_str e;
            entry_agent := "error"; entry_timestamp := ts |}].
Proof.
  destruct (coordinator_agent_run Sample.research_down "Research quantum computing trends"
              (request_received Sample.research_down "Research quantum computing trends"
                 Sample.configured)) as [[out|e] w2] eqn:Hrun.
  - vm_compute in Hrun. discriminate Hrun.
  - destruct (proj1 (proj2 (process_request_never_raises Sample.research_down
                       "Research quantum computing trends" Sample.configured)) e w2 Hrun)
      as (w' & ts & H).
    exists e, w2, w', ts. split; [reflexivity | exact H].
Defined.

(** The text returned in that run. *)
Example research_down_response :
  fst (process_request Sample.research_down "Research quantum computing trends"
         Sample.configured)
    = Ok "❌ Error processing request: research backend timed out".
Proof. vm_compute. reflexivity. Qed.

(** C3, amended. Every call of [process_request] adds to the conversation
    history the user's entry first, then what the tools wrote, system
    entries only, and one closing entry last: the assistant's entry holding
    the response when the coordinator's run succeeds, the system error entry
    when it fails, in which case no assistant entry is added.  What it adds
    to the task history is what the calls of the tools left, call by call in
    the order of the model calls made: one completed record naming the
    specialist for a delegation whose specialist gave an accepted result,
    the research, content creation and combined records for a complex
    analysis that completed, the research record alone for one whose report
    writer failed, and nothing for a call whose specialist failed.  So each
    specialist has as many single-agent records as accepted calls, and when
    no specialist call was accepted no record is added at all. *)
Theorem process_request_shape ext user_input w :
  exists w' cs ts xs closing t0,
    snd (process_request ext user_input w) = w' /\
    conversation_history (context w') =
      conversation_history (context w) ++ user_entry user_input t0 :: cs ++ [closing] /\
    system_only cs /\
    entries_with_role "user" (user_entry user_input t0 :: cs ++ [closing])
      = [user_entry user_input t0] /\
    task_history (context w') = task_history (context w) ++ ts /\
    exchanges w' = exchanges w ++ xs /\
    run_writes user_input cs ts xs /\
    tallied ts xs /\
    (Forall (fun x => ex_agent x <> "coordinator" -> ex_ok x = false) xs -> ts = []) /\
    match coordinator_agent_run ext user_input (request_received ext user_input w) with
    | (Ok out, _) =>
        fst (process_request ext user_input w) = Ok out /\
        (exists t1, closing = assistant_entry out t1) /\
        entries_with_role "assistant" (user_entry user_input t0 :: cs ++ [closing])
          = [closing]
    | (Raise e, _) =>
        fst (process_request ext user_input w)
          = Ok ("❌ Error processing request: " +:+ exn_str e) /\
        (exists t1,
            closing = error_entry ("❌ Error processing request: " +:+ exn_str e) t1) /\
        entries_with_role "assistant" (user_entry user_input t0 :: cs ++ [closing]) = []
    end.
Proof.
  destruct (process_request_run ext user_input w) as [Hg1 Hrun].
  destruct (coordinator_agent_run_writes ext user_input (request_received ext user_input w))
    as (cs & ts & xs & Hg2 & Hwrites).
  pose proof (run_writes_system_only _ _ _ _ Hwrites) as Hsys.
  pose proof (run_writes_tallied _ _ _ _ Hwrites) as Htally.
  pose proof (run_writes_unaccepted _ _ _ _ Hwrites) as Hnone.
  assert (Hroles : forall r closing,
             entries_with_role r (user_entry user_input (isoformat ext (clock w))
                                    :: cs ++ [closing]) =
             entries_with_role r [user_entry user_input (isoformat ext (clock w))]
               ++ entries_with_role r cs ++ entries_with_role r [closing]).
  { intros r closing. unfold entries_with_role.
    change (user_entry user_input (isoformat ext (clock w)) :: cs ++ [closing])
      with ([user_entry user_input (isoformat ext (clock w))] ++ cs ++ [closing]).
    rewrite !filter_app. reflexivity. }
  destruct (coordinator_agent_run ext user_input (request_received ext user_input w))
    as [[out|e] w2]; simpl in Hg2; destruct Hrun as (w' & Hp & Hg3 & _);
    pose proof (grows_trans _ _ _ _ _ _ _ _ _ (grows_trans _ _ _ _ _ _ _ _ _ Hg1 Hg2) Hg3)
      as Hg;
    rewrite !app_nil_r in Hg; simpl in Hg.
  - exists w', cs, ts, xs, (assistant_entry out (isoformat ext (clock w2))),
      (isoformat ext (clock w)).
    split; [rewrite Hp; reflexivity|].
    split; [exact (grows_conversation _ _ _ _ _ Hg)|].
    split; [exact Hsys|].
    split; [rewrite Hroles, (entries_with_role_system_only "user" cs Hsys) by discriminate;
            reflexivity|].
    split; [exact (grows_tasks _ _ _ _ _ Hg)|].
    split; [exact (grows_exchanges _ _ _ _ _ Hg)|].
    split; [exact Hwrites|].
    split; [exact Htally|].
    split; [exact Hnone|].
    split; [rewrite Hp; reflexivity|].
    split; [eauto|].
    rewrite Hroles, (entries_with_role_system_only "assistant" cs Hsys) by discriminate.
    reflexivity.
  - exists w', cs, ts, xs,
      (error_entry (error_prefix +:+ exn_str e) (isoformat ext (clock w2))),
      (isoformat ext (clock w)).
    split; [rewrite Hp; reflexivity|].
    split; [exact (grows_conversation _ _ _ _ _ Hg)|].
    split; [exact Hsys|].
    split; [rewrite Hroles, (entries_with_role_system_only "user" cs Hsys) by discriminate;
            reflexivity|].
    split; [exact (grows_tasks _ _ _ _ _ Hg)|].
    split; [exact (grows_exchanges _ _ _ _ _ Hg)|].
    split; [exact Hwrites|].
    split; [exact Htally|].
    split; [exact Hnone|].
    split; [rewrite Hp; reflexivity|].
    split; [eexists; reflexivity|].
    rewrite Hroles, (entries_with_role_system_only "assistant" cs Hsys) by discriminate.
    reflexivity.
Qed.



(** In that run the three entries and the research record written before
    the report writer failed are all in the final histories. *)
Example writer_down_final_histories :
  let w' := snd (process_request Sample.writer_down
                   "Do a complex analysis on AI impact on healthcare" Sample.configured) in
  map entry_content (conversation_history (context w')) =
    [ "Do a complex analysis on AI impact on healthcare";
      "Starting complex analysis: AI impact on healthcare";
      "Delegating research: AI impact on healthcare";
      "Delegating content creation: report";
      "❌ Error processing request: creative backend timed out" ] /\
  map result_summary (task_history (context w')) =
    [ "Researched: AI impact on healthcare (Confidence: Medium)" ] /\
  map (fun x => (ex_agent x, ex_ok x)) (exchanges w') =
    [ ("coordinator", true); ("research_agent", true); ("creative_agent", false) ].
Proof. vm_compute. repeat split. Qed.

(** ** The two readers of the context: the text they give *)

Lemma render_task_text out it : render_task out it = out +:+ task_text it.
Proof.
  destruct it as [i t]. unfold render_task, task_text. cbn [fst snd].
  rewrite !append_assoc. reflexivity.
Qed.

Lemma fold_left_render_task l out :
  fold_left render_task l out = out +:+ String.concat EmptyString (map task_text l).
Proof.
  revert out. induction l as [|it l IH]; intros out.
  - simpl. rewrite append_nil_r. reflexivity.
  - cbn [fold_left map]. rewrite IH, render_task_text, concat_empty_cons, append_assoc.
    reflexivity.
Qed.

(** C6. On an empty task history the reporter returns the fixed message.  On
    a history of seven records it returns the header, which counts all
    seven, followed by the texts of the third to the seventh record and of
    no other, in the order they were added and numbered 1 to 5: for each,
    the number, the kind in capitals and the summary on one line, the agents
    and the status on the next, and an empty line.  (The kinds shown are
    taken to be ASCII text, as are all those the tools write.) *)
Theorem task_history_report deps :
  (task_history deps = [] ->
   get_task_history deps = "No tasks completed yet in this session.") /\
  (forall t1 t2 t3 t4 t5 t6 t7,
      task_history deps = [t1; t2; t3; t4; t5; t6; t7] ->
      Forall (fun t => isascii (task_type t) = true) [t3; t4; t5; t6; t7] ->
      let item (number : string) (t : TaskSummary) :=
        number +:+ ". " +:+ Py.upper (task_type t) +:+ ": " +:+ result_summary t +:+ Py.nl
          +:+ "   Agents: " +:+ Py.join ", " (agents_used t) +:+ " | Status: " +:+ status t
          +:+ Py.nl +:+ Py.nl in
      get_task_history deps =
        "📊 Session " +:+ session_id deps +:+ " - 7 tasks completed:" +:+ Py.nl +:+ Py.nl
          +:+ item "1" t3 +:+ item "2" t4 +:+ item "3" t5 +:+ item "4" t6 +:+ item "5" t7).
Proof.
  split.
  - intros Hempty. unfold get_task_history. rewrite Hempty. reflexivity.
  - intros t1 t2 t3 t4 t5 t6 t7 Hseven _ item. subst item. cbv beta.
    rewrite (get_task_history_last_five deps [t1; t2] [t3; t4; t5; t6; t7])
      by (exact Hseven || reflexivity).
    rewrite fold_left_render_task.
    unfold task_history_header, Py.str_len. rewrite Hseven.
    change (Py.str_int (Z.of_nat (length [t1; t2; t3; t4; t5; t6; t7]))) with "7".
    cbn [Py.enumerate map String.concat]. unfold task_text. cbn [fst snd].
    change (Py.str_int 1) with "1".
    change (Py.str_int (1 + 1)) with "2".
    change (Py.str_int (1 + 1 + 1)) with "3".
    change (Py.str_int (1 + 1 + 1 + 1)) with "4".
    change (Py.str_int (1 + 1 + 1 + 1 + 1)) with "5".
    rewrite !append_assoc. reflexivity.
Qed.

Lemma task_history_report_witness :
  get_task_history Sample.empty_context = "No tasks completed yet in this session." /\
  get_task_history Sample.seven_tasks =
    "📊 Session 20250101_000000 - 7 tasks completed:" +:+ Py.nl +:+ Py.nl
      +:+ "1. RESEARCH: task 3" +:+ Py.nl
      +:+ "   Agents: research_agent | Status: completed" +:+ Py.nl +:+ Py.nl
      +:+ "2. RESEARCH: task 4" +:+ Py.nl
      +:+ "   Agents: research_agent | Status: completed" +:+ Py.nl +:+ Py.nl
      +:+ "3. RESEARCH: task 5" +:+ Py.nl
      +:+ "   Agents: research_agent | Status: completed" +:+ Py.nl +:+ Py.nl
      +:+ "4. RESEARCH: task 6" +:+ Py.nl
      +:+ "   Agents: research_agent | Status: completed" +:+ Py.nl +:+ Py.nl
      +:+ "5. RESEARCH: task 7" +:+ Py.nl
      +:+ "   Agents: research_agent | Status: completed" +:+ Py.nl +:+ Py.nl.
Proof.
  split.
  - exact (proj1 (task_history_report Sample.empty_context) eq_refl).
  - rewrite (proj2 (task_history_report Sample.seven_tasks) _ _ _ _ _ _ _ eq_refl
               ltac:(repeat constructor)).
    vm_compute. reflexivity.
Defined.

(** X6. On any non-empty task history the reporter returns the header,
    which counts the whole history, followed by the texts of the records
    from position [length - 5] on and of no other: the last five, or all of
    them when there are at most five.  They come in the order they were
    added, the one at position [k] among them numbered [k + 1], each as its
    number, its kind in capitals and its summary on one line, its agents and
    status on the next, and an empty line.  (The kinds are taken to be
    ASCII text.) *)
Theorem task_history_report_last_five_or_all deps :
  task_history deps <> [] ->
  Forall (fun t => isascii (task_type t) = true) (task_history deps) ->
  let history := task_history deps in
  let shown := drop (length history - 5) history in
  get_task_history deps =
    ("📊 Session " +:+ session_id deps +:+ " - " +:+ Py.str_int (Z.of_nat (length history))
       +:+ " tasks completed:" +:+ Py.nl +:+ Py.nl)
    +:+ String.concat EmptyString
          (map (fun it : Z * TaskSummary =>
                  Py.str_int (fst it) +:+ ". " +:+ Py.upper (task_type (snd it)) +:+ ": "
                    +:+ result_summary (snd it) +:+ Py.nl
                    +:+ "   Agents: " +:+ Py.join ", " (agents_used (snd it))
                    +:+ " | Status: " +:+ status (snd it) +:+ Py.nl +:+ Py.nl)
               (Py.enumerate 1 shown)) /\
  length shown = Nat.min 5 (length history) /\
  ((length history <= 5)%nat -> shown = history) /\
  (forall k t, shown !! k = Some t ->
               Py.enumerate 1 shown !! k = Some (Z.of_nat k + 1, t)).
Proof.
  intros Hne _ history shown. subst shown history. split; [|split; [|split]].
  - unfold get_task_history, task_history_header, Py.str_len.
    destruct (task_history deps) as [|t0 rest] eqn:Hh; [congruence|].
    rewrite last_slice_positive by lia. rewrite fold_left_render_task. reflexivity.
  - rewrite length_drop. lia.
  - intros Hle.
    replace (length (task_history deps) - 5)%nat with 0%nat by lia. reflexivity.
  - intros k t Hk. rewrite (enumerate_lookup _ 1 k t Hk). f_equal. f_equal. lia.
Qed.

Lemma task_history_report_last_five_or_all_witness :
  get_task_history Sample2.three_tasks =
    "📊 Session 20250101_000000 - 3 tasks completed:" +:+ Py.nl +:+ Py.nl
      +:+ "1. RESEARCH: task 1" +:+ Py.nl
      +:+ "   Agents: research_agent | Status: completed" +:+ Py.nl +:+ Py.nl
      +:+ "2. RESEARCH: task 2" +:+ Py.nl
      +:+ "   Agents: research_agent | Status: completed" +:+ Py.nl +:+ Py.nl
      +:+ "3. RESEARCH: task 3" +:+ Py.nl
      +:+ "   Agents: research_agent | Status: completed" +:+ Py.nl +:+ Py.nl.
Proof.
  rewrite (proj1 (task_history_report_last_five_or_all Sample2.three_tasks
                    ltac:(discriminate) ltac:(repeat constructor))).
  vm_compute. reflexivity.
Defined.

(** X7. With a positive limit [get_recent_context] returns the lines of the
    last [min limit (length history)] conversation entries and of no other,
    oldest first and joined by newlines, each line being the agent in
    brackets, the role, a colon and the content. *)
Theorem get_recent_context_positive_limit self limit :
  0 < limit ->
  let history := conversation_history self in
  let recent := drop (length history - Z.to_nat limit) history in
  get_recent_context self limit =
    Py.join Py.nl
      (map (fun e => "[" +:+ entry_agent e +:+ "] " +:+ entry_role e +:+ ": "
                       +:+ entry_content e) recent) /\
  length recent = Nat.min (Z.to_nat limit) (length history) /\
  history = take (length history - Z.to_nat limit) history ++ recent.
Proof.
  intros Hlimit history recent.
  destruct (get_recent_context_positive self limit Hlimit) as [Htext Hlen].
  split; [exact Htext|]. split; [exact Hlen|].
  subst recent. symmetry. apply take_drop.
Qed.

Lemma get_recent_context_positive_limit_witness :
  get_recent_context Sample2.five_entries 2 =
    "[user] user: message 4" +:+ Py.nl +:+ "[user] user: message 5".
Proof.
  rewrite (proj1 (get_recent_context_positive_limit Sample2.five_entries 2 eq_refl)).
  vm_compute. reflexivity.
Defined.

(** X8. With a negative limit [-k] the slice [conversation_history[k:]] is
    taken: [get_recent_context] leaves out the [k] oldest entries and
    returns the lines of all the others, however many they are, oldest
    first and joined by newlines, each line being the agent in brackets,
    the role, a colon and the content.  On an empty history it returns the
    empty text for every limit. *)
Theorem get_recent_context_negative_limit self k :
  0 < k ->
  get_recent_context self (- k) =
    Py.join Py.nl
      (map (fun e => "[" +:+ entry_agent e +:+ "] " +:+ entry_role e +:+ ": "
                       +:+ entry_content e)
           (drop (Z.to_nat k) (conversation_history self))) /\
  (conversation_history self = [] -> forall limit, get_recent_context self limit = EmptyString).
Proof.
  intros Hk. split.
  - unfold get_recent_context, Py.last_slice.
    destruct (conversation_history self) as [|e rest] eqn:Hh.
    + rewrite drop_nil. reflexivity.
    + rewrite Z.opp_involutive, slice_from_positive by lia. reflexivity.
  - intros Hempty limit. unfold get_recent_context. rewrite Hempty. reflexivity.
Qed.

Lemma get_recent_context_negative_limit_witness :
  get_recent_context Sample2.five_entries (- 2) =
    "[user] user: message 3" +:+ Py.nl +:+ "[user] user: message 4" +:+ Py.nl
      +:+ "[user] user: message 5".
Proof.
  etransitivity;
    [exact (proj1 (get_recent_context_negative_limit Sample2.five_entries 2 eq_refl))|].
  vm_compute. reflexivity.
Defined.

(** Histories from which the writes of a call were taken back are not what
    a run leaves: with the research accepted and the report writer failed,
    empty lists of entries and records do not go with the calls made. *)
Example rolled_back_writes_are_not_those_of_a_run u p1 p2 :
  ~ run_writes u [] []
      [exchange "coordinator" u true;
       exchange "research_agent" p1 true;
       exchange "creative_agent" p2 false].
Proof.
  intros H. inversion H as [ | cs1 ts1 xs1 cs2 ts2 xs2 Hw Hr Hcs Hts Hxs | cs1 ts1 xs1 Hw ].
  - apply app_eq_nil in Hcs as [-> _].
    inversion Hw; subst. cbn [app] in Hxs. subst xs2. inversion Hr.
  - inversion Hw.
Qed.
